(** * Shallow embedding of the matrix-iptv diagnostic scripts

    The four scripts under [src/] ([debug_dns.py], [debug_redirect.py],
    [debug_stream.py], [scripts/benchmark_playlists.py]) are modelled as
    programs of a state-and-exception monad [M]:
    - the state records the requests issued so far ([st_log]), the lines
      printed so far ([st_out]) and the number of body bytes received from
      the network ([st_rx]);
    - a Python exception is the [Raise] outcome; as in Python, the effects
      performed before the exception (prints, requests) are kept;
    - the network is an oracle [net] answering a request from the history of
      the requests issued before it: either a response or the exception the
      HTTP library raises (DNS failure, refused connection, timeout, ...).
    Library functions the scripts call ([bytes.decode], [json.loads],
    Python's [str] on a decoded JSON value) are parameters, so every theorem
    holds for any implementation of them; concrete implementations are given
    for the examples. *)

From Stdlib Require Import String Ascii List ZArith Bool Lia.
Import ListNotations.
Open Scope string_scope.
Set Warnings "-register-all".

(** ** Python values and exceptions *)

(** An exception object: its class name and [str(e)]. *)
Record PyExc := mkExc { exc_type : string; exc_msg : string }.

(** Outcome of a Python computation. *)
Inductive Res (A : Type) : Type :=
| Ok (a : A)
| Raise (e : PyExc).
Arguments Ok {A} a.
Arguments Raise {A} e.

(** Decoded JSON values, as [json.loads] returns them ([None], [bool],
    [int], [str], [list], [dict]); a [dict] is a list of bindings with
    distinct keys (the last duplicate key wins in [json.loads]). *)
Inductive Json : Type :=
| JNull
| JBool (b : bool)
| JNum (z : Z)
| JStr (s : string)
| JArr (l : list Json)
| JObj (kvs : list (string * Json)).

Definition py_type_name (j : Json) : string :=
  match j with
  | JNull => "NoneType"
  | JBool _ => "bool"
  | JNum _ => "int"
  | JStr _ => "str"
  | JArr _ => "list"
  | JObj _ => "dict"
  end.

Definition type_error (msg : string) : PyExc := mkExc "TypeError" msg.

(** A Python [str] is represented by its UTF-8 encoding. [utf8_chars s]
    splits it into the encodings of its characters: a byte 0x80-0xBF
    continues the character before it. *)
Definition utf8_cont (c : ascii) : bool :=
  let n := nat_of_ascii c in (128 <=? n)%nat && (n <=? 191)%nat.

Fixpoint utf8_chars (s : string) : list string :=
  match s with
  | EmptyString => []
  | String c s' =>
      match utf8_chars s' with
      | String c' t :: rest =>
          if utf8_cont c' then String c (String c' t) :: rest
          else String c EmptyString :: String c' t :: rest
      | l => String c EmptyString :: l
      end
  end.

(** [len(v)]; the length of a [str] counts its characters. *)
Definition py_len (v : Json) : Res nat :=
  match v with
  | JStr s => Ok (List.length (utf8_chars s))
  | JArr l => Ok (List.length l)
  | JObj kvs => Ok (List.length kvs)
  | _ => Raise (type_error ("object of type '" ++ py_type_name v ++ "' has no len()"))
  end.

(** The characters of a string, each as a one-character string. *)
Definition str_chars (s : string) : list Json := map JStr (utf8_chars s).

(** [for s in v]: the elements a [for] loop visits. *)
Definition py_iter (v : Json) : Res (list Json) :=
  match v with
  | JArr l => Ok l
  | JObj kvs => Ok (map (fun kv => JStr (fst kv)) kvs)
  | JStr s => Ok (str_chars s)
  | _ => Raise (type_error ("'" ++ py_type_name v ++ "' object is not iterable"))
  end.

Fixpoint assoc (k : string) (kvs : list (string * Json)) : option Json :=
  match kvs with
  | [] => None
  | (k', v) :: rest => if String.eqb k k' then Some v else assoc k rest
  end.

(** [s.get(key, default)] *)
Definition py_get (s : Json) (key : string) (default : Json) : Res Json :=
  match s with
  | JObj kvs =>
      match assoc key kvs with
      | Some v => Ok v
      | None => Ok default
      end
  | _ => Raise (mkExc "AttributeError"
                  ("'" ++ py_type_name s ++ "' object has no attribute 'get'"))
  end.

(** Substring test of [str.__contains__]. *)
Fixpoint str_contains (pat s : string) : bool :=
  String.prefix pat s ||
  match s with
  | EmptyString => false
  | String _ s' => str_contains pat s'
  end.

(** [needle in v] for a string [needle]. *)
Definition py_in (needle : string) (v : Json) : Res bool :=
  match v with
  | JStr s => Ok (str_contains needle s)
  | JArr l =>
      Ok (existsb (fun x => match x with JStr t => String.eqb t needle | _ => false end) l)
  | JObj kvs => Ok (existsb (fun kv => String.eqb (fst kv) needle) kvs)
  | _ => Raise (type_error ("argument of type '" ++ py_type_name v ++ "' is not iterable"))
  end.

(** ** HTTP *)

Inductive Method := GET | HEAD.

Record Request := mkReq {
  req_method : Method;
  req_url : string;
  req_headers : list (string * string);
  req_timeout : Z;
  req_allow_redirects : bool;
  req_stream : bool
}.

(** How the body is framed on the wire: by [Content-Length] or the end of
    the connection ([Delimited]), or by [Transfer-Encoding: chunked], with the
    sizes of the data chunks in the order they are sent ([Chunked]; a size 0
    is the last-chunk, which ends the body). *)
Inductive Framing := Delimited | Chunked (sizes : list nat).

(** A response: status, header dictionary, the body bytes the server
    delivers, what ends the delivery, and the framing of the body. The end of
    the delivery is [None] for a clean end of body (for a chunked body, the
    last-chunk follows the delivered bytes, so a chunk size reaching past them
    ends with them), [Some e] for a transport failure (reset, read timeout)
    raised when the client waits for more bytes. *)
Record Response := mkResp {
  resp_status : Z;
  resp_headers : list (string * string);
  resp_body : string;
  resp_tail : option PyExc;
  resp_framing : Framing
}.

Definition ascii_lower (c : ascii) : ascii :=
  let n := nat_of_ascii c in
  if (65 <=? n)%nat && (n <=? 90)%nat then ascii_of_nat (n + 32) else c.

Fixpoint str_lower (s : string) : string :=
  match s with
  | EmptyString => EmptyString
  | String c s' => String (ascii_lower c) (str_lower s')
  end.

(** Lookup in the case-insensitive header dictionary of [requests]. *)
Fixpoint hdr_lookup (k : string) (hs : list (string * string)) : option string :=
  match hs with
  | [] => None
  | (k', v) :: rest =>
      if String.eqb (str_lower k) (str_lower k') then Some v else hdr_lookup k rest
  end.

(** ** Printed lines

    One constructor per [print] call of the scripts; the elapsed times
    printed by the benchmark are not modelled. *)
Inductive Line : Type :=
(* debug_dns.py *)
| LQuerying (domain : string)
| LJson (text : string)
(* debug_redirect.py *)
| LChecking (name : string)
| LStatus (code : Z)
| LLocation (v : string)
| LNoLocation
| LCheckError (msg : string)
(* debug_stream.py *)
| LTesting (url : string)
| LStatusCode (code : Z)
| LHeadersTitle
| LHeader (k v : string)
| LReading
| LBytesLen (n : nat)
| LSuccess
| LFailure (code : Z)
| LException (msg : string)
(* benchmark_playlists.py *)
| LBanner
| LProcessing (name : string)
| LCategories (n : nat)
| LSearching
| LStreams (n : nat)
| LFound (n : nat)
| LStreamEntry (stream_id name : string)
| LLink (url : string)
| LNotFound
| LAccError (msg : string)
| LComplete
(* a generic print of an exception message, as [print(e)] *)
| LRaw (msg : string).

(** ** The monad *)

Record St := mkSt { st_log : list Request; st_out : list Line; st_rx : nat }.

Definition M (A : Type) := St -> Res A * St.

Definition ret {A} (a : A) : M A := fun st => (Ok a, st).
Definition bind {A B} (m : M A) (f : A -> M B) : M B :=
  fun st => match m st with
            | (Ok a, st') => f a st'
            | (Raise e, st') => (Raise e, st')
            end.
Definition throw {A} (e : PyExc) : M A := fun st => (Raise e, st).
Definition lift {A} (r : Res A) : M A :=
  fun st => match r with Ok a => (Ok a, st) | Raise e => (Raise e, st) end.
(** [try: body except Exception as e: handler(e)] *)
Definition try_except {A} (body : M A) (handler : PyExc -> M A) : M A :=
  fun st => match body st with
            | (Ok a, st') => (Ok a, st')
            | (Raise e, st') => handler e st'
            end.

Notation "x <- m ;; k" := (bind m (fun x => k))
  (at level 61, m at next level, right associativity).
Notation "m ;; k" := (bind m (fun _ : unit => k))
  (at level 61, right associativity).

Definition print (l : Line) : M unit :=
  fun st => (Ok tt, mkSt (st_log st) (st_out st ++ [l]) (st_rx st)).

Definition receive (n : nat) : M unit :=
  fun st => (Ok tt, mkSt (st_log st) (st_out st) (st_rx st + n)).

Fixpoint for_ {A} (xs : list A) (body : A -> M unit) : M unit :=
  match xs with
  | [] => ret tt
  | x :: rest => body x ;; for_ rest body
  end.

(** Decimal rendering of an integer, as [str(n)]. *)
Fixpoint uint_to_string (d : Decimal.uint) : string :=
  match d with
  | Decimal.Nil => ""
  | Decimal.D0 d' => "0" ++ uint_to_string d'
  | Decimal.D1 d' => "1" ++ uint_to_string d'
  | Decimal.D2 d' => "2" ++ uint_to_string d'
  | Decimal.D3 d' => "3" ++ uint_to_string d'
  | Decimal.D4 d' => "4" ++ uint_to_string d'
  | Decimal.D5 d' => "5" ++ uint_to_string d'
  | Decimal.D6 d' => "6" ++ uint_to_string d'
  | Decimal.D7 d' => "7" ++ uint_to_string d'
  | Decimal.D8 d' => "8" ++ uint_to_string d'
  | Decimal.D9 d' => "9" ++ uint_to_string d'
  end.

Definition z_to_string (z : Z) : string :=
  match Z.to_int z with
  | Decimal.Pos d => uint_to_string d
  | Decimal.Neg d => "-" ++ uint_to_string d
  end.

(** [next(...)] on an exhausted iterator: [StopIteration()], whose [str] is empty. *)
Definition stop_iteration : PyExc := mkExc "StopIteration" "".

(** The [HTTPError] that [urllib.request.urlopen] raises on a status outside 2xx
    (the reason phrase is not modelled). *)
Definition http_error (code : Z) : PyExc :=
  mkExc "HTTPError" ("HTTP Error " ++ z_to_string code).

Section Scripts.

(** The network: the answer to a request, given the requests issued before. *)
Variable net : list Request -> Request -> Res Response.
(** [bytes.decode()] (UTF-8), [json.loads] and [str] on a decoded JSON value. *)
Variable utf8_decode : string -> Res string.
Variable json_loads : string -> Res Json.
Variable py_str : Json -> string.

(** Issue one request. *)
Definition send (r : Request) : M Response :=
  fun st => (net (st_log st) r, mkSt (st_log st ++ [r]) (st_out st) (st_rx st)).

(** Read the whole body ([resp.read()], or [requests.get] without [stream]). *)
Definition read_all (r : Response) : M string :=
  receive (String.length (resp_body r)) ;;
  match resp_tail r with
  | None => ret (resp_body r)
  | Some e => throw e
  end.

(** The size of the first chunk urllib3's [HTTPResponse.stream(n)] yields
    once its bytes have arrived: [read(n)] on a delimited body returns [n]
    bytes; [read_chunked(n)] on a chunked body returns the first data chunk,
    cut at [n] bytes. [0]: the body has no data chunk. *)
Definition chunk_limit (n : nat) (f : Framing) : nat :=
  match f with
  | Delimited => n
  | Chunked [] => 0
  | Chunked (k :: _) => Nat.min n k
  end.

(** [next(r.iter_content(chunk_size=n))]: the underlying read waits for the
    [chunk_limit n] bytes of the first chunk or the end of the body; an empty
    body, or a chunked body with no data chunk, yields no chunk. *)
Definition first_chunk (n : nat) (r : Response) : M string :=
  let b := resp_body r in
  match chunk_limit n (resp_framing r) with
  | 0 =>
      match resp_tail r with
      | Some e => throw e
      | None => throw stop_iteration
      end
  | lim =>
      if (lim <=? String.length b)%nat then
        receive lim ;; ret (substring 0 lim b)
      else
        receive (String.length b) ;;
        match resp_tail r with
        | Some e => throw e
        | None => match b with
                  | EmptyString => throw stop_iteration
                  | _ => ret b
                  end
        end
  end.

(** *** debug_dns.py *)

Definition domain : string := "8884152.lbt4.xyz".
Definition doh_url : string := "https://dns.google/resolve?name=" ++ domain.
Definition dns_req : Request := mkReq GET doh_url [] 5 true false.

Definition dns_main : M unit :=
  print (LQuerying domain) ;;
  try_except
    (r <- send dns_req ;;
     body <- read_all r ;;
     txt <- lift (utf8_decode body) ;;
     j <- lift (json_loads txt) ;;
     print (LJson (py_str j)))
    (fun e => print (LRaw (exc_msg e))).

(** *** debug_redirect.py *)

Definition user_agent : string :=
  "Mozilla/5.0 (Windows NT 10.0; Win64; x64) AppleWebKit/537.36 (KHTML, like Gecko) Chrome/120.0.0.0 Safari/537.36".
Definition url_ts : string := "http://zfruvync.duperab.xyz/live/PE1S9S8U/11EZZUMW/53504.ts".
Definition url_m3u8 : string := "http://zfruvync.duperab.xyz/live/PE1S9S8U/11EZZUMW/53504.m3u8".
Definition redirect_headers : list (string * string) := [("User-Agent", user_agent)].

(** [requests.head(u, headers=headers, allow_redirects=False, timeout=5)] *)
Definition head_req (u : string) : Request := mkReq HEAD u redirect_headers 5 false false.

Definition check (name u : string) : M unit :=
  print (LChecking name) ;;
  try_except
    (r <- send (head_req u) ;;
     print (LStatus (resp_status r)) ;;
     match hdr_lookup "Location" (resp_headers r) with
     | Some v => print (LLocation v)
     | None => print LNoLocation
     end)
    (fun e => print (LCheckError (exc_msg e))).

Definition redirect_main : M unit :=
  check "TS" url_ts ;;
  check "M3U8" url_m3u8.

(** *** debug_stream.py *)

Definition stream_url : string := "http://zfruvync.duperab.xyz/live/PE1S9S8U/11EZZUMW/53504.ts".
Definition stream_headers : list (string * string) :=
  [("User-Agent", user_agent); ("Referer", "http://zfruvync.duperab.xyz/")].

(** [requests.get(url, headers=headers, stream=True, timeout=10)] *)
Definition stream_req : Request := mkReq GET stream_url stream_headers 10 true true.

(** The body of the [with] block. *)
Definition stream_probe : M unit :=
  r <- send stream_req ;;
  print (LStatusCode (resp_status r)) ;;
  print LHeadersTitle ;;
  for_ (resp_headers r) (fun kv => print (LHeader (fst kv) (snd kv))) ;;
  if Z.eqb (resp_status r) 200 then
    print LReading ;;
    chunk <- first_chunk 64 r ;;
    print (LBytesLen (String.length chunk)) ;;
    (if (0 <? String.length chunk)%nat then print LSuccess else ret tt)
  else
    print (LFailure (resp_status r)).

Definition stream_main : M unit :=
  print (LTesting stream_url) ;;
  try_except stream_probe (fun e => print (LException (exc_msg e))).

(** *** scripts/benchmark_playlists.py *)

Record Account := mkAcc {
  acc_name : string;
  acc_url : string;
  acc_user : string;
  acc_pass : string
}.

Definition accounts : list Account := [
  mkAcc "Strong 8K" "http://pledge78502.cdn-akm.me:80" "7c34d33c9e21" "037dacb169";
  mkAcc "Trex" "http://line.offcial-trex.pro" "3a6aae52fb" "39c165888139";
  mkAcc "Strong8k2-PC" "http://zfruvync.duperab.xyz" "PE1S9S8U" "11EZZUMW";
  mkAcc "Mega OTT 1" "http://line.4smart.in" "45Z88W6" "Z7PHTX3"].

Definition api_url (acc : Account) (action : string) : string :=
  acc_url acc ++ "/player_api.php?username=" ++ acc_user acc ++
  "&password=" ++ acc_pass acc ++ "&action=" ++ action.

Definition cat_url (acc : Account) : string := api_url acc "get_live_categories".
Definition streams_url (acc : Account) : string := api_url acc "get_live_streams".

(** The request [urllib.request.urlopen(url, timeout=t)] sends: a GET that
    follows redirects (the oracle answers with the final response). *)
Definition urlopen_req (url : string) (timeout : Z) : Request :=
  mkReq GET url [] timeout true false.

(** [urllib.request.urlopen]: a status outside 2xx raises [HTTPError]. *)
Definition urlopen (url : string) (timeout : Z) : M Response :=
  r <- send (urlopen_req url timeout) ;;
  if ((200 <=? resp_status r) && (resp_status r <? 300))%Z then ret r
  else throw (http_error (resp_status r)).

(** [json.loads(resp.read().decode())] *)
Definition load_body (r : Response) : M Json :=
  body <- read_all r ;;
  txt <- lift (utf8_decode body) ;;
  lift (json_loads txt).

(** [[s for s in streams if "MSNBC" in s.get("name", "")]], over the
    elements the loop visits. *)
Fixpoint msnbc_filter (xs : list Json) : Res (list Json) :=
  match xs with
  | [] => Ok []
  | s :: rest =>
      match py_get s "name" (JStr "") with
      | Raise e => Raise e
      | Ok n =>
          match py_in "MSNBC" n with
          | Raise e => Raise e
          | Ok b =>
              match msnbc_filter rest with
              | Raise e => Raise e
              | Ok l => Ok (if b then s :: l else l)
              end
          end
      end
  end.

(** [f"{acc['url']}/live/{acc['user']}/{acc['pass']}/{stream_id}.ts"] *)
Definition play_url (acc : Account) (stream_id : Json) : string :=
  acc_url acc ++ "/live/" ++ acc_user acc ++ "/" ++ acc_pass acc ++ "/" ++
  py_str stream_id ++ ".ts".

(** The [try] block of one iteration. *)
Definition account_body (acc : Account) : M unit :=
  (* 1. Categories *)
  resp <- urlopen (cat_url acc) 30 ;;
  cats <- load_body resp ;;
  n <- lift (py_len cats) ;;
  print (LCategories n) ;;
  (* 2. Streams & MSNBC *)
  print LSearching ;;
  resp2 <- urlopen (streams_url acc) 120 ;;
  streams <- load_body resp2 ;;
  n2 <- lift (py_len streams) ;;
  print (LStreams n2) ;;
  xs <- lift (py_iter streams) ;;
  msnbc <- lift (msnbc_filter xs) ;;
  match msnbc with
  | [] => print LNotFound
  | _ =>
      print (LFound (List.length msnbc)) ;;
      for_ (firstn 3 msnbc) (fun s =>
        stream_id <- lift (py_get s "stream_id" JNull) ;;
        name <- lift (py_get s "name" JNull) ;;
        print (LStreamEntry (py_str stream_id) (py_str name)) ;;
        print (LLink (play_url acc stream_id)))
  end.

(** One iteration of [for acc in accounts]. *)
Definition process_account (acc : Account) : M unit :=
  print (LProcessing (acc_name acc)) ;;
  try_except (account_body acc) (fun e => print (LAccError (exc_msg e))).

Definition bench_main (accs : list Account) : M unit :=
  print LBanner ;;
  for_ accs process_account ;;
  print LComplete.

End Scripts.

(** ** Example implementations of the library functions

    Used only to run the scripts on concrete inputs. [decode_impl] checks
    the UTF-8 byte structure (overlong three- and four-byte forms and
    surrogates are not rejected); [json_loads_impl] parses JSON without
    fractions, exponents or [\u] escapes (those inputs raise). *)

Fixpoint utf8_ok (pending : nat) (s : string) : bool :=
  match s with
  | EmptyString => Nat.eqb pending 0
  | String c r =>
      let n := nat_of_ascii c in
      match pending with
      | S p => (128 <=? n)%nat && (n <? 192)%nat && utf8_ok p r
      | O =>
          if (n <? 128)%nat then utf8_ok 0 r
          else if (194 <=? n)%nat && (n <? 224)%nat then utf8_ok 1 r
          else if (224 <=? n)%nat && (n <? 240)%nat then utf8_ok 2 r
          else if (240 <=? n)%nat && (n <? 245)%nat then utf8_ok 3 r
          else false
      end
  end.

Definition decode_impl (b : string) : Res string :=
  if utf8_ok 0 b then Ok b
  else Raise (mkExc "UnicodeDecodeError" "'utf-8' codec can't decode bytes").

Definition json_error : PyExc := mkExc "JSONDecodeError" "Expecting value".

Definition is_ws (c : ascii) : bool :=
  match c with
  | " "%char | "009"%char | "010"%char | "013"%char => true
  | _ => false
  end.

Fixpoint skip_ws (s : string) : string :=
  match s with
  | String c r => if is_ws c then skip_ws r else s
  | EmptyString => EmptyString
  end.

Definition digit_val (c : ascii) : option Z :=
  let n := nat_of_ascii c in
  if (48 <=? n)%nat && (n <=? 57)%nat then Some (Z.of_nat (n - 48)) else None.

Fixpoint parse_digits (s : string) (acc : Z) : Z * string :=
  match s with
  | String c r =>
      match digit_val c with
      | Some d => parse_digits r (10 * acc + d)
      | None => (acc, s)
      end
  | EmptyString => (acc, s)
  end.

(** An unsigned integer: [0] alone, or a nonzero digit followed by digits. *)
Definition parse_nat (s : string) : option (Z * string) :=
  match s with
  | String "0"%char r => Some (0%Z, r)
  | String c r =>
      match digit_val c with
      | Some d => Some (parse_digits r d)
      | None => None
      end
  | EmptyString => None
  end.

Definition parse_number (s : string) : option (Json * string) :=
  match s with
  | String "-"%char r =>
      match parse_nat r with Some (z, r') => Some (JNum (- z), r') | None => None end
  | _ => match parse_nat s with Some (z, r') => Some (JNum z, r') | None => None end
  end.

(** The body of a string literal after its opening quote. *)
Fixpoint parse_str (s acc : string) : option (string * string) :=
  match s with
  | EmptyString => None
  | String "034"%char r => Some (acc, r)
  | String "\"%char (String e r) =>
      let c := match e with
               | "n"%char => Some "010"%char
               | "t"%char => Some "009"%char
               | "r"%char => Some "013"%char
               | "b"%char => Some "008"%char
               | "f"%char => Some "012"%char
               | "034"%char | "\"%char | "/"%char => Some e
               | _ => None
               end in
      match c with
      | Some c' => parse_str r (acc ++ String c' EmptyString)
      | None => None
      end
  | String c r =>
      if (nat_of_ascii c <? 32)%nat then None
      else parse_str r (acc ++ String c EmptyString)
  end.

(** [dict] insertion: a repeated key keeps its place and takes the new value. *)
Fixpoint dict_set (k : string) (v : Json) (kvs : list (string * Json)) :=
  match kvs with
  | [] => [(k, v)]
  | (k', v') :: r => if String.eqb k k' then (k, v) :: r else (k', v') :: dict_set k v r
  end.

Fixpoint parse_value (fuel : nat) (s : string) : option (Json * string) :=
  match fuel with
  | O => None
  | S f =>
      match skip_ws s with
      | String "n"%char (String "u"%char (String "l"%char (String "l"%char r))) =>
          Some (JNull, r)
      | String "t"%char (String "r"%char (String "u"%char (String "e"%char r))) =>
          Some (JBool true, r)
      | String "f"%char (String "a"%char (String "l"%char (String "s"%char (String "e"%char r)))) =>
          Some (JBool false, r)
      | String "034"%char r =>
          match parse_str r "" with Some (t, r') => Some (JStr t, r') | None => None end
      | String "["%char r =>
          match skip_ws r with
          | String "]"%char r' => Some (JArr [], r')
          | _ => parse_elems f r []
          end
      | String "{"%char r =>
          match skip_ws r with
          | String "}"%char r' => Some (JObj [], r')
          | _ => parse_members f r []
          end
      | s' => parse_number s'
      end
  end
with parse_elems (fuel : nat) (s : string) (acc : list Json) : option (Json * string) :=
  match fuel with
  | O => None
  | S f =>
      match parse_value f s with
      | None => None
      | Some (v, r) =>
          match skip_ws r with
          | String ","%char r' => parse_elems f r' (acc ++ [v])
          | String "]"%char r' => Some (JArr (acc ++ [v]), r')
          | _ => None
          end
      end
  end
with parse_members (fuel : nat) (s : string) (acc : list (string * Json))
    : option (Json * string) :=
  match fuel with
  | O => None
  | S f =>
      match skip_ws s with
      | String "034"%char r =>
          match parse_str r "" with
          | None => None
          | Some (k, r1) =>
              match skip_ws r1 with
              | String ":"%char r2 =>
                  match parse_value f r2 with
                  | None => None
                  | Some (v, r3) =>
                      match skip_ws r3 with
                      | String ","%char r4 => parse_members f r4 (dict_set k v acc)
                      | String "}"%char r4 => Some (JObj (dict_set k v acc), r4)
                      | _ => None
                      end
                  end
              | _ => None
              end
          end
      | _ => None
      end
  end.

Definition json_loads_impl (s : string) : Res Json :=
  match parse_value (2 * String.length s + 2) s with
  | Some (v, r) =>
      match skip_ws r with
      | EmptyString => Ok v
      | _ => Raise json_error
      end
  | None => Raise json_error
  end.

(** [repr] of a decoded JSON value (strings are quoted without escaping). *)
Fixpoint py_repr (j : Json) : string :=
  match j with
  | JNull => "None"
  | JBool true => "True"
  | JBool false => "False"
  | JNum z => z_to_string z
  | JStr s => "'" ++ s ++ "'"
  | JArr l =>
      "[" ++
      (fix go (l : list Json) : string :=
         match l with
         | [] => ""
         | [x] => py_repr x
         | x :: r => py_repr x ++ ", " ++ go r
         end) l ++ "]"
  | JObj kvs =>
      "{" ++
      (fix go (kvs : list (string * Json)) : string :=
         match kvs with
         | [] => ""
         | [(k, v)] => "'" ++ k ++ "': " ++ py_repr v
         | (k, v) :: r => "'" ++ k ++ "': " ++ py_repr v ++ ", " ++ go r
         end) kvs ++ "}"
  end.

Definition py_str_impl (j : Json) : string :=
  match j with
  | JStr s => s
  | _ => py_repr j
  end.

(** The double-quote character as a one-character string. *)
Definition dq : string := String "034"%char EmptyString.
Definition jstr (s : string) : string := dq ++ s ++ dq.

Example json_loads_impl_ex1 :
  json_loads_impl ("[{" ++ jstr "name" ++ ": " ++ jstr "MSNBC HD" ++ ", " ++
                   jstr "stream_id" ++ ": 7}, {" ++ jstr "stream_id" ++ ": -12}]") =
  Ok (JArr [JObj [("name", JStr "MSNBC HD"); ("stream_id", JNum 7)];
            JObj [("stream_id", JNum (-12))]]).
Proof. reflexivity. Qed.

(** ** Observations of a run *)

Open Scope list_scope.

(** The play URLs a run printed. *)
Fixpoint links_of (out : list Line) : list string :=
  match out with
  | [] => []
  | LLink u :: rest => u :: links_of rest
  | _ :: rest => links_of rest
  end.

Definition is_processing (l : Line) : bool :=
  match l with LProcessing _ => true | _ => false end.

Section Observations.

Variable net : list Request -> Request -> Res Response.
Variable utf8_decode : string -> Res string.
Variable json_loads : string -> Res Json.

(** The JSON value [json.loads(resp.read().decode())] yields for a response
    that [urlopen] returned or refused. *)
Definition response_json (r : Response) : Res Json :=
  if ((200 <=? resp_status r) && (resp_status r <? 300))%Z then
    match resp_tail r with
    | Some e => Raise e
    | None =>
        match utf8_decode (resp_body r) with
        | Raise e => Raise e
        | Ok txt => json_loads txt
        end
    end
  else Raise (http_error (resp_status r)).

(** Outcome of the stage-1 statements of an account, up to [len(cats)]. *)
Definition stage1_outcome (log : list Request) (acc : Account) : Res nat :=
  match net log (urlopen_req (cat_url acc) 30) with
  | Raise e => Raise e
  | Ok r =>
      match response_json r with
      | Raise e => Raise e
      | Ok cats => py_len cats
      end
  end.

End Observations.

(** The name of a stream entry as a string, missing or non-string names as
    the empty string; and its [stream_id], missing as [None]. *)
Definition name_text (e : Json) : string :=
  match e with
  | JObj kvs => match assoc "name" kvs with Some (JStr s) => s | _ => "" end
  | _ => ""
  end.

Definition stream_id_of (e : Json) : Json :=
  match e with
  | JObj kvs => match assoc "stream_id" kvs with Some v => v | None => JNull end
  | _ => JNull
  end.

(** An entry that is a JSON object whose [name] is a string or missing. *)
Definition plain_entry (e : Json) : Prop :=
  exists kvs, e = JObj kvs /\
    match assoc "name" kvs with None | Some (JStr _) => True | _ => False end.

(** ** Monad lemmas *)

Lemma bind_Ok {A B} (m : M A) (f : A -> M B) st a st' :
  m st = (Ok a, st') -> bind m f st = f a st'.
Proof. intros H. unfold bind. now rewrite H. Qed.

Lemma bind_Raise {A B} (m : M A) (f : A -> M B) st e st' :
  m st = (Raise e, st') -> bind m f st = (Raise e, st').
Proof. intros H. unfold bind. now rewrite H. Qed.

Lemma bind_print {B} l (k : unit -> M B) st :
  bind (print l) k st = k tt (mkSt (st_log st) (st_out st ++ [l]) (st_rx st)).
Proof. reflexivity. Qed.

Lemma bind_lift_Ok {A B} (a : A) (k : A -> M B) st : bind (lift (Ok a)) k st = k a st.
Proof. reflexivity. Qed.

Lemma bind_lift_Raise {A B} e (k : A -> M B) st : bind (lift (Raise e)) k st = (Raise e, st).
Proof. reflexivity. Qed.

(** A program that only appends lines satisfying [P] to the output. *)
Definition appends (P : Line -> Prop) {A} (m : M A) : Prop :=
  forall st, exists ls, st_out (snd (m st)) = (st_out st ++ ls)%list /\ Forall P ls.

(** A program that issues no request. *)
Definition quiet {A} (m : M A) : Prop :=
  forall st, st_log (snd (m st)) = st_log st.

Section Footprints.

Variable P : Line -> Prop.

Lemma appends_ret {A} (a : A) : appends P (ret a).
Proof. intros st. exists []. split; [symmetry; apply app_nil_r | constructor]. Qed.

Lemma appends_throw {A} e : appends P (@throw A e).
Proof. intros st. exists []. split; [symmetry; apply app_nil_r | constructor]. Qed.

Lemma appends_lift {A} (r : Res A) : appends P (lift r).
Proof.
  intros st. exists []. split; [|constructor].
  destruct r; simpl; symmetry; apply app_nil_r.
Qed.

Lemma appends_print l : P l -> appends P (print l).
Proof. intros Hl st. exists [l]. split; [reflexivity | now constructor]. Qed.

Lemma appends_receive n : appends P (receive n).
Proof. intros st. exists []. split; [symmetry; apply app_nil_r | constructor]. Qed.

Lemma appends_send net r : appends P (send net r).
Proof. intros st. exists []. split; [symmetry; apply app_nil_r | constructor]. Qed.

Lemma appends_bind {A B} (m : M A) (f : A -> M B) :
  appends P m -> (forall a, appends P (f a)) -> appends P (bind m f).
Proof.
  intros Hm Hf st. unfold bind.
  destruct (Hm st) as [ls1 [E1 F1]].
  destruct (m st) as [[a|e] st1] eqn:Em; simpl in E1.
  - destruct (Hf a st1) as [ls2 [E2 F2]].
    exists (ls1 ++ ls2). split.
    + rewrite E2, E1. symmetry. apply app_assoc.
    + now apply Forall_app.
  - exists ls1. now split.
Qed.

Lemma appends_try {A} (body : M A) (h : PyExc -> M A) :
  appends P body -> (forall e, appends P (h e)) -> appends P (try_except body h).
Proof.
  intros Hb Hh st. unfold try_except.
  destruct (Hb st) as [ls1 [E1 F1]].
  destruct (body st) as [[a|e] st1]; simpl in E1.
  - exists ls1. now split.
  - destruct (Hh e st1) as [ls2 [E2 F2]].
    exists (ls1 ++ ls2). split.
    + rewrite E2, E1. symmetry. apply app_assoc.
    + now apply Forall_app.
Qed.

Lemma appends_for {A} (xs : list A) (body : A -> M unit) :
  (forall x, appends P (body x)) -> appends P (for_ xs body).
Proof.
  intros Hb. induction xs as [|x xs IH]; simpl.
  - apply appends_ret.
  - apply appends_bind; auto.
Qed.

End Footprints.

Lemma quiet_ret {A} (a : A) : quiet (ret a).
Proof. now intros st. Qed.

Lemma quiet_throw {A} e : quiet (@throw A e).
Proof. now intros st. Qed.

Lemma quiet_lift {A} (r : Res A) : quiet (lift r).
Proof. intros st. now destruct r. Qed.

Lemma quiet_print l : quiet (print l).
Proof. now intros st. Qed.

Lemma quiet_receive n : quiet (receive n).
Proof. now intros st. Qed.

Lemma quiet_bind {A B} (m : M A) (f : A -> M B) :
  quiet m -> (forall a, quiet (f a)) -> quiet (bind m f).
Proof.
  intros Hm Hf st. unfold bind. specialize (Hm st).
  destruct (m st) as [[a|e] st1]; simpl in *.
  - now rewrite Hf.
  - exact Hm.
Qed.

Lemma quiet_for {A} (xs : list A) (body : A -> M unit) :
  (forall x, quiet (body x)) -> quiet (for_ xs body).
Proof.
  intros Hb. induction xs as [|x xs IH]; simpl.
  - apply quiet_ret.
  - apply quiet_bind; auto.
Qed.

Lemma quiet_try {A} (body : M A) (h : PyExc -> M A) :
  (forall e, quiet (h e)) ->
  forall st, st_log (snd (try_except body h st)) = st_log (snd (body st)).
Proof.
  intros Hh st. unfold try_except.
  destruct (body st) as [[a|e] st1]; simpl; [reflexivity | apply Hh].
Qed.

Create HintDb footprint.
#[export] Hint Resolve appends_ret appends_throw appends_lift appends_receive
  appends_send appends_for quiet_ret quiet_throw quiet_lift quiet_print
  quiet_receive quiet_for : footprint.

(** Split a program into its statements and close each one. *)
Ltac footprint :=
  repeat first
    [ progress intros
    | match goal with
      | |- appends _ (for_ _ _) => apply appends_for
      | |- quiet (for_ _ _) => apply quiet_for
      | |- appends _ (bind _ _) => apply appends_bind
      | |- quiet (bind _ _) => apply quiet_bind
      | |- appends _ (try_except _ _) => apply appends_try
      | |- appends _ (print _) => apply appends_print
      | |- appends _ (match ?x with _ => _ end) => destruct x
      | |- quiet (match ?x with _ => _ end) => destruct x
      | |- appends _ (if ?b then _ else _) => destruct b
      | |- quiet (if ?b then _ else _) => destruct b
      end
    | match goal with
      | |- quiet (print _) => apply quiet_print
      end
    | progress unfold read_all, first_chunk, load_body, urlopen
    | solve [eauto with footprint]
    | reflexivity
    | discriminate ].

(** ** Theorems *)

Section Proofs.

Variable net : list Request -> Request -> Res Response.
Variable utf8_decode : string -> Res string.
Variable json_loads : string -> Res Json.
Variable py_str : Json -> string.

Local Abbreviation acc_body := (account_body net utf8_decode json_loads py_str).
Local Abbreviation proc := (process_account net utf8_decode json_loads py_str).
Local Abbreviation bench := (bench_main net utf8_decode json_loads py_str).
Local Abbreviation dns := (dns_main net utf8_decode json_loads py_str).
Local Abbreviation stream := (stream_main net).
Local Abbreviation probe := (stream_probe net).
Local Abbreviation redirect := (redirect_main net).
Local Abbreviation chk := (check net).

Lemma account_body_lines :
  forall acc, appends (fun l => is_processing l = false) (acc_body acc).
Proof. intros acc. unfold account_body. footprint. Qed.

Lemma process_account_shape acc st :
  fst (proc acc st) = Ok tt /\
  exists rest,
    st_out (snd (proc acc st)) = st_out st ++ LProcessing (acc_name acc) :: rest /\
    Forall (fun l => is_processing l = false) rest.
Proof.
  unfold process_account. rewrite bind_print. unfold try_except.
  set (st1 := mkSt (st_log st) (st_out st ++ [LProcessing (acc_name acc)]) (st_rx st)).
  destruct (account_body_lines acc st1) as [ls [E F]].
  destruct (acc_body acc st1) as [[u|e] st2]; simpl in *.
  - destruct u. split; [reflexivity|].
    exists ls. split; [|exact F]. rewrite E. subst st1; simpl. now rewrite <- app_assoc.
  - split; [reflexivity|].
    exists (ls ++ [LAccError (exc_msg e)]). split.
    + rewrite E. subst st1; simpl. now rewrite <- !app_assoc.
    + apply Forall_app. split; [exact F|]. now constructor.
Qed.

(** When an account's [try] block raises [e], the iteration completes and its
    last line records [e]. *)
Lemma process_account_records_failure acc st e st' :
  acc_body acc (mkSt (st_log st) (st_out st ++ [LProcessing (acc_name acc)]) (st_rx st))
    = (Raise e, st') ->
  proc acc st = (Ok tt, mkSt (st_log st') (st_out st' ++ [LAccError (exc_msg e)]) (st_rx st')).
Proof.
  intros H. unfold process_account. rewrite bind_print. unfold try_except.
  now rewrite H.
Qed.

Lemma for_process_ok accs st : fst (for_ accs proc st) = Ok tt.
Proof.
  revert st. induction accs as [|acc accs IH]; intros st; [reflexivity|].
  simpl. unfold bind at 1.
  destruct (process_account_shape acc st) as [Hok _].
  destruct (proc acc st) as [[u|e] st1]; simpl in Hok; [|discriminate].
  apply IH.
Qed.

Lemma bench_main_ok accs st : fst (bench accs st) = Ok tt.
Proof.
  unfold bench_main. rewrite bind_print.
  set (st1 := mkSt _ _ _).
  unfold bind. pose proof (for_process_ok accs st1) as H.
  destruct (for_ accs proc st1) as [[u|e] st2]; simpl in H; [|discriminate].
  reflexivity.
Qed.

Lemma stream_main_ok st : fst (stream st) = Ok tt.
Proof.
  unfold stream_main. rewrite bind_print. unfold try_except.
  destruct (probe _) as [[u|e] st2]; [now destruct u | reflexivity].
Qed.

Lemma check_ok name u st : fst (chk name u st) = Ok tt.
Proof.
  unfold check. rewrite bind_print. unfold try_except.
  destruct (bind (send net (head_req u)) _ _) as [[v|e] st2]; [now destruct v | reflexivity].
Qed.

Lemma redirect_main_ok st : fst (redirect st) = Ok tt.
Proof.
  unfold redirect_main, bind at 1.
  pose proof (check_ok "TS" url_ts st) as H.
  destruct (chk "TS" url_ts st) as [[v|e] st2]; simpl in H; [|discriminate].
  apply check_ok.
Qed.

Lemma dns_main_ok st : fst (dns st) = Ok tt.
Proof.
  unfold dns_main. rewrite bind_print. unfold try_except.
  destruct (bind (send net dns_req) _ _) as [[v|e] st2]; [now destruct v | reflexivity].
Qed.

(** C1: no exception escapes any of the scripts, whatever the network
    answers and whatever the account list; an account whose [try] block raises
    is recorded with that exception's message as the last line of its block. *)
Theorem scripts_never_raise :
  (forall accs st, fst (bench_main net utf8_decode json_loads py_str accs st) = Ok tt) /\
  (forall st, fst (stream_main net st) = Ok tt) /\
  (forall st, fst (redirect_main net st) = Ok tt) /\
  (forall st, fst (dns_main net utf8_decode json_loads py_str st) = Ok tt) /\
  (forall acc st e st',
     account_body net utf8_decode json_loads py_str acc
       (mkSt (st_log st) (st_out st ++ [LProcessing (acc_name acc)]) (st_rx st))
       = (Raise e, st') ->
     process_account net utf8_decode json_loads py_str acc st =
       (Ok tt, mkSt (st_log st') (st_out st' ++ [LAccError (exc_msg e)]) (st_rx st'))).
Proof.
  split; [exact bench_main_ok|].
  split; [exact stream_main_ok|].
  split; [exact redirect_main_ok|].
  split; [exact dns_main_ok|].
  exact process_account_records_failure.
Qed.

End Proofs.

(** ** Running the statements of the benchmark *)

Section Steps.

Variable net : list Request -> Request -> Res Response.
Variable utf8_decode : string -> Res string.
Variable json_loads : string -> Res Json.
Variable py_str : Json -> string.

Definition with_req (st : St) (r : Request) : St :=
  mkSt (st_log st ++ [r]) (st_out st) (st_rx st).

Definition is_2xx (code : Z) : bool := ((200 <=? code) && (code <? 300))%Z.

Lemma urlopen_run url t st :
  urlopen net url t st =
  (match net (st_log st) (urlopen_req url t) with
   | Ok r => if is_2xx (resp_status r) then Ok r else Raise (http_error (resp_status r))
   | Raise e => Raise e
   end, with_req st (urlopen_req url t)).
Proof.
  unfold urlopen, bind, send, with_req, is_2xx.
  destruct (net _ _) as [r|e]; [|reflexivity].
  now destruct (_ && _)%Z.
Qed.

Lemma load_body_run r st :
  load_body utf8_decode json_loads r st =
  (match resp_tail r with
   | Some e => Raise e
   | None => match utf8_decode (resp_body r) with
             | Ok txt => json_loads txt
             | Raise e => Raise e
             end
   end, mkSt (st_log st) (st_out st) (st_rx st + String.length (resp_body r))).
Proof.
  unfold load_body, read_all, bind, receive, lift, ret, throw.
  destruct (resp_tail r); [reflexivity|].
  destruct (utf8_decode _); [|reflexivity].
  now destruct (json_loads _).
Qed.

(** [response_json] is what [urlopen] followed by [load_body] yields. *)
Lemma urlopen_load_run {B} url t st (k : Json -> M B) :
  bind (urlopen net url t) (fun resp => bind (load_body utf8_decode json_loads resp) k) st =
  match net (st_log st) (urlopen_req url t) with
  | Raise e => (Raise e, with_req st (urlopen_req url t))
  | Ok r =>
      if is_2xx (resp_status r) then
        match response_json utf8_decode json_loads r with
        | Ok v => k v (mkSt (st_log st ++ [urlopen_req url t]) (st_out st)
                           (st_rx st + String.length (resp_body r)))
        | Raise e => (Raise e, mkSt (st_log st ++ [urlopen_req url t]) (st_out st)
                                   (st_rx st + String.length (resp_body r)))
        end
      else (Raise (http_error (resp_status r)), with_req st (urlopen_req url t))
  end.
Proof.
  unfold bind at 1. rewrite urlopen_run.
  destruct (net _ _) as [r|e]; [|reflexivity].
  unfold response_json. fold (is_2xx (resp_status r)).
  destruct (is_2xx (resp_status r)); [|reflexivity].
  unfold bind. rewrite load_body_run. simpl.
  destruct (resp_tail r); [reflexivity|].
  destruct (utf8_decode _); [|reflexivity].
  now destruct (json_loads _).
Qed.

Lemma urlopen_then_quiet {B} url t (k : Response -> M B) st :
  (forall r, quiet (k r)) ->
  st_log (snd (bind (urlopen net url t) k st)) = st_log st ++ [urlopen_req url t].
Proof.
  intros Hk. unfold bind at 1. rewrite urlopen_run.
  destruct (net _ _) as [r|e]; [|reflexivity].
  destruct (is_2xx _); [|reflexivity].
  apply Hk.
Qed.

(** Everything after the stage-2 request issues no further request. *)
Lemma stage2_rest_quiet acc :
  forall resp2,
  quiet (streams <- load_body utf8_decode json_loads resp2 ;;
         n2 <- lift (py_len streams) ;;
         print (LStreams n2) ;;
         xs <- lift (py_iter streams) ;;
         msnbc <- lift (msnbc_filter xs) ;;
         match msnbc with
         | [] => print LNotFound
         | _ =>
             print (LFound (List.length msnbc)) ;;
             for_ (firstn 3 msnbc) (fun s =>
               stream_id <- lift (py_get s "stream_id" JNull) ;;
               name <- lift (py_get s "name" JNull) ;;
               print (LStreamEntry (py_str stream_id) (py_str name)) ;;
               print (LLink (play_url py_str acc stream_id)))
         end).
Proof. footprint. Qed.

Lemma account_body_log acc st :
  st_log (snd (account_body net utf8_decode json_loads py_str acc st)) =
  st_log st ++ urlopen_req (cat_url acc) 30 ::
    match stage1_outcome net utf8_decode json_loads (st_log st) acc with
    | Ok _ => [urlopen_req (streams_url acc) 120]
    | Raise _ => []
    end.
Proof.
  unfold account_body, stage1_outcome. rewrite urlopen_load_run.
  destruct (net _ _) as [r|e]; [|reflexivity].
  destruct (is_2xx (resp_status r)) eqn:S.
  2:{ unfold response_json. unfold is_2xx in S. now rewrite S. }
  destruct (response_json _ _ r) as [cats|e]; [|reflexivity].
  destruct (py_len cats) as [n|e]; [|reflexivity].
  rewrite bind_lift_Ok, !bind_print. simpl.
  rewrite urlopen_then_quiet by apply stage2_rest_quiet.
  simpl. now rewrite <- app_assoc.
Qed.

Lemma process_account_log acc st :
  st_log (snd (process_account net utf8_decode json_loads py_str acc st)) =
  st_log st ++ urlopen_req (cat_url acc) 30 ::
    match stage1_outcome net utf8_decode json_loads (st_log st) acc with
    | Ok _ => [urlopen_req (streams_url acc) 120]
    | Raise _ => []
    end.
Proof.
  unfold process_account. rewrite bind_print.
  rewrite quiet_try by (intros; apply quiet_print).
  now rewrite account_body_log.
Qed.

Lemma account_body_stage1_raise acc st e :
  stage1_outcome net utf8_decode json_loads (st_log st) acc = Raise e ->
  exists st', account_body net utf8_decode json_loads py_str acc st = (Raise e, st') /\
              st_out st' = st_out st.
Proof.
  unfold account_body, stage1_outcome. rewrite urlopen_load_run.
  destruct (net _ _) as [r|e']; intros H.
  2:{ injection H as <-. eexists. split; reflexivity. }
  destruct (is_2xx (resp_status r)) eqn:S.
  2:{ unfold response_json in H. unfold is_2xx in S. rewrite S in H.
      injection H as <-. eexists. split; reflexivity. }
  destruct (response_json _ _ r) as [cats|e'].
  2:{ injection H as <-. eexists. split; reflexivity. }
  rewrite H, bind_lift_Raise. eexists. split; reflexivity.
Qed.

Lemma process_account_stage1_raise acc st e :
  stage1_outcome net utf8_decode json_loads (st_log st) acc = Raise e ->
  st_out (snd (process_account net utf8_decode json_loads py_str acc st)) =
  st_out st ++ [LProcessing (acc_name acc); LAccError (exc_msg e)].
Proof.
  intros H. unfold process_account. rewrite bind_print. unfold try_except.
  destruct (account_body_stage1_raise acc
              (mkSt (st_log st) (st_out st ++ [LProcessing (acc_name acc)]) (st_rx st)) e H)
    as [st' [E O]].
  rewrite E. simpl. rewrite O. simpl. now rewrite <- app_assoc.
Qed.

End Steps.

Definition header_lines (hs : list (string * string)) : list Line :=
  map (fun kv => LHeader (fst kv) (snd kv)) hs.

Lemma for_print_headers hs st :
  for_ hs (fun kv => print (LHeader (fst kv) (snd kv))) st =
  (Ok tt, mkSt (st_log st) (st_out st ++ header_lines hs) (st_rx st)).
Proof.
  revert st. induction hs as [|kv hs IH]; intros st; simpl.
  - destruct st; simpl. now rewrite app_nil_r.
  - rewrite bind_print, IH. simpl. now rewrite <- app_assoc.
Qed.

Lemma substring_0_length n s :
  String.length (substring 0 n s) = Nat.min n (String.length s).
Proof.
  revert s. induction n as [|n IH]; intros s; [now destruct s|].
  destruct s as [|c s]; simpl; [reflexivity|]. now rewrite IH.
Qed.


Lemma chunk_limit_le n f : (chunk_limit n f <= n)%nat.
Proof. destruct f as [|[|k ks]]; simpl; lia. Qed.




Lemma first_chunk_spec n r st :
  st_log (snd (first_chunk n r st)) = st_log st /\
  st_out (snd (first_chunk n r st)) = st_out st /\
  (forall c, fst (first_chunk n r st) = Ok c ->
     (String.length c <= n)%nat /\ (c <> EmptyString -> resp_body r <> EmptyString)).
Proof.
  pose proof (chunk_limit_le n (resp_framing r)) as L.
  unfold first_chunk.
  destruct (chunk_limit n (resp_framing r)) as [|lim].
  { destruct (resp_tail r); simpl; (split; [reflexivity|]; split; [reflexivity|discriminate]). }
  destruct (Nat.leb_spec (S lim) (String.length (resp_body r))) as [Hle|Hlt].
  - simpl. split; [reflexivity|]. split; [reflexivity|].
    intros c E. injection E as <-. rewrite substring_0_length. split; [lia|].
    intros Hc Hb. apply Hc. now rewrite Hb.
  - unfold bind, receive. simpl.
    destruct (resp_tail r); simpl; [split; [reflexivity|]; split; [reflexivity|discriminate]|].
    destruct (resp_body r) eqn:B; simpl;
      (split; [reflexivity|]; split; [reflexivity|]);
      [discriminate|].
    intros c E. injection E as <-. split; [simpl in Hlt |- *; lia | discriminate].
Qed.

(** The statements of the streaming probe up to the [if]. *)
Lemma stream_probe_run net st r :
  net (st_log st) stream_req = Ok r ->
  stream_probe net st =
  (if Z.eqb (resp_status r) 200 then
     (print LReading ;;
      chunk <- first_chunk 64 r ;;
      print (LBytesLen (String.length chunk)) ;;
      (if (0 <? String.length chunk)%nat then print LSuccess else ret tt))
   else print (LFailure (resp_status r)))
    (mkSt (st_log st ++ [stream_req])
          (st_out st ++ [LStatusCode (resp_status r); LHeadersTitle] ++
           header_lines (resp_headers r)) (st_rx st)).
Proof.
  intros N. unfold stream_probe, bind at 1, send. rewrite N.
  rewrite !bind_print. unfold bind at 1. rewrite for_print_headers. simpl.
  now rewrite <- !app_assoc.
Qed.


Lemma links_of_app a b : links_of (a ++ b) = links_of a ++ links_of b.
Proof.
  induction a as [|l a IH]; [reflexivity|].
  destruct l; simpl; rewrite ?IH; reflexivity.
Qed.

Lemma response_json_2xx utf8_decode json_loads r v :
  response_json utf8_decode json_loads r = Ok v -> is_2xx (resp_status r) = true.
Proof.
  unfold response_json, is_2xx. now destruct (_ && _)%Z.
Qed.

Lemma try_Ok {A} (body : M A) h st a st' :
  body st = (Ok a, st') -> try_except body h st = (Ok a, st').
Proof. intros H. unfold try_except. now rewrite H. Qed.

(** The comprehension over entries that are objects with a string or no
    [name]: the entries whose name (the empty string when missing) contains
    ["MSNBC"], in list order. *)
Lemma msnbc_filter_plain xs :
  Forall plain_entry xs ->
  msnbc_filter xs = Ok (filter (fun e => str_contains "MSNBC" (name_text e)) xs).
Proof.
  induction 1 as [|e xs [kvs [-> Hn]] _ IH]; [reflexivity|].
  simpl. unfold name_text.
  destruct (assoc "name" kvs) as [[]|] eqn:A; try contradiction;
    simpl; rewrite IH; reflexivity.
Qed.

Lemma Forall_firstn_sub {A} (P : A -> Prop) n l :
  Forall P l -> Forall P (firstn n l).
Proof.
  intros H. revert n. induction H as [|x l Hx _ IH]; intros [|n]; simpl; auto.
Qed.

Lemma Forall_filter_sub {A} (P : A -> Prop) f l :
  Forall P l -> Forall P (filter f l).
Proof.
  induction 1 as [|x l Hx _ IH]; simpl; [constructor|].
  destruct (f x); auto.
Qed.

Section Links.

Variable py_str : Json -> string.
Variable acc : Account.

(** The loop [for s in msnbc[:3]] of the benchmark. *)
Definition link_loop_body (s : Json) : M unit :=
  stream_id <- lift (py_get s "stream_id" JNull) ;;
  name <- lift (py_get s "name" JNull) ;;
  print (LStreamEntry (py_str stream_id) (py_str name)) ;;
  print (LLink (play_url py_str acc stream_id)).

Lemma for_links ms st :
  Forall (fun e => exists kvs, e = JObj kvs) ms ->
  fst (for_ ms link_loop_body st) = Ok tt /\
  links_of (st_out (snd (for_ ms link_loop_body st))) =
    links_of (st_out st) ++ map (fun e => play_url py_str acc (stream_id_of e)) ms.
Proof.
  intros H. revert st. induction H as [|e ms [kvs ->] _ IH]; intros st.
  - split; [reflexivity|]. simpl. now rewrite app_nil_r.
  - simpl.
    assert (E : link_loop_body (JObj kvs) st =
                (Ok tt, mkSt (st_log st)
                          (st_out st ++ [LStreamEntry (py_str (stream_id_of (JObj kvs)))
                                           (py_str (match assoc "name" kvs with
                                                    | Some v => v | None => JNull end));
                                         LLink (play_url py_str acc (stream_id_of (JObj kvs)))])
                          (st_rx st))).
    { unfold link_loop_body, stream_id_of, py_get.
      destruct (assoc "stream_id" kvs), (assoc "name" kvs);
        unfold bind, lift, print; simpl; rewrite <- ?app_assoc; reflexivity. }
    rewrite (bind_Ok _ _ _ _ _ E).
    match goal with
    | |- context [for_ ms link_loop_body ?s] => destruct (IH s) as [Hok Hl]
    end.
    split; [exact Hok|]. rewrite Hl. simpl.
    rewrite links_of_app. simpl. now rewrite <- app_assoc.
Qed.

End Links.

(** When stage 1 succeeds and the streams request raises, the account's block
    ends with the error after the categories and searching lines. *)
Lemma process_account_stage2_raise net utf8_decode json_loads py_str acc st n e :
  stage1_outcome net utf8_decode json_loads (st_log st) acc = Ok n ->
  net (st_log st ++ [urlopen_req (cat_url acc) 30]) (urlopen_req (streams_url acc) 120) =
    Raise e ->
  st_out (snd (process_account net utf8_decode json_loads py_str acc st)) =
    st_out st ++ [LProcessing (acc_name acc); LCategories n; LSearching; LAccError (exc_msg e)].
Proof.
  intros S1 N2. unfold stage1_outcome in S1.
  destruct (net (st_log st) (urlopen_req (cat_url acc) 30)) as [r1|e1] eqn:N1;
    [|discriminate].
  destruct (response_json utf8_decode json_loads r1) as [cats|e1] eqn:J1; [|discriminate].
  unfold process_account. rewrite bind_print. unfold try_except.
  unfold account_body. rewrite urlopen_load_run. cbn [st_log].
  rewrite N1, (response_json_2xx _ _ _ _ J1), J1.
  rewrite S1, bind_lift_Ok, !bind_print.
  rewrite urlopen_load_run. cbn [st_log st_out st_rx]. rewrite N2.
  unfold with_req. simpl. now rewrite <- !app_assoc.
Qed.

Section Claims.

Variable net : list Request -> Request -> Res Response.
Variable utf8_decode : string -> Res string.
Variable json_loads : string -> Res Json.
Variable py_str : Json -> string.

Local Abbreviation proc := (process_account net utf8_decode json_loads py_str).
Local Abbreviation bench := (bench_main net utf8_decode json_loads py_str).
Local Abbreviation stage1 := (stage1_outcome net utf8_decode json_loads).

(** The block of printed lines of one account. *)
Definition account_block (acc : Account) (b : list Line) : Prop :=
  exists rest, b = LProcessing (acc_name acc) :: rest /\
               Forall (fun l => is_processing l = false) rest.

Lemma for_process_blocks accs st :
  exists blocks,
    st_out (snd (for_ accs proc st)) = st_out st ++ concat blocks /\
    Forall2 account_block accs blocks.
Proof.
  revert st. induction accs as [|acc accs IH]; intros st.
  - exists []. split; [symmetry; apply app_nil_r | constructor].
  - simpl. unfold bind at 1.
    destruct (process_account_shape net utf8_decode json_loads py_str acc st)
      as [Hok [rest [E F]]].
    destruct (proc acc st) as [[u|e] st1]; simpl in Hok, E; [|discriminate].
    destruct (IH st1) as [blocks [E' F']].
    exists ((LProcessing (acc_name acc) :: rest) :: blocks). split.
    + rewrite E', E. simpl. now rewrite <- app_assoc.
    + constructor; [|exact F']. now exists rest.
Qed.

Lemma for_process_log accs st :
  exists reqs,
    st_log (snd (for_ accs proc st)) = st_log st ++ concat reqs /\
    Forall2 (fun acc rs =>
               rs = [urlopen_req (cat_url acc) 30] \/
               rs = [urlopen_req (cat_url acc) 30; urlopen_req (streams_url acc) 120])
            accs reqs.
Proof.
  revert st. induction accs as [|acc accs IH]; intros st.
  - exists []. split; [symmetry; apply app_nil_r | constructor].
  - simpl. unfold bind at 1.
    pose proof (process_account_log net utf8_decode json_loads py_str acc st) as L.
    destruct (process_account_shape net utf8_decode json_loads py_str acc st) as [Hok _].
    destruct (proc acc st) as [[u|e] st1]; simpl in Hok, L; [|discriminate].
    destruct (IH st1) as [reqs [E' F']].
    set (rs := urlopen_req (cat_url acc) 30 ::
                 match stage1 (st_log st) acc with
                 | Ok _ => [urlopen_req (streams_url acc) 120]
                 | Raise _ => []
                 end).
    exists (rs :: reqs). split.
    + rewrite E', L. simpl. now rewrite <- app_assoc.
    + constructor; [|exact F']. subst rs.
      destruct (stage1 _ _); [right | left]; reflexivity.
Qed.

(** C2: the benchmark prints, between its banner and its closing line,
    exactly one block per account, in the order of the account list; each
    block starts with the account's [Processing] line and holds no other one. *)
Theorem one_block_per_account accs st :
  exists blocks,
    st_out (snd (bench accs st)) = st_out st ++ LBanner :: concat blocks ++ [LComplete] /\
    List.length blocks = List.length accs /\
    Forall2 account_block accs blocks.
Proof.
  unfold bench_main. rewrite bind_print. unfold bind at 1.
  set (st1 := mkSt _ _ _).
  destruct (for_process_blocks accs st1) as [blocks [E F]].
  pose proof (for_process_ok net utf8_decode json_loads py_str accs st1) as Hok.
  destruct (for_ accs proc st1) as [[u|e] st2]; simpl in Hok, E; [|discriminate].
  exists blocks. split; [|split].
  - unfold print. simpl. rewrite E. subst st1. simpl. now rewrite <- !app_assoc.
  - symmetry. eapply Forall2_length. exact F.
  - exact F.
Qed.

(** C3 (as the code does it): an account's stage-2 request is issued exactly
    when its stage-1 statements succeed, that is when the categories request
    returns a 2xx response whose whole body is read, decodes and parses to a
    value that has a [len()]: a list, a dict or a string. Otherwise the
    account's block is its [Processing] line followed by the error. *)
Theorem stage2_iff_stage1_ok acc st :
  st_log (snd (proc acc st)) =
    st_log st ++ urlopen_req (cat_url acc) 30 ::
      match stage1 (st_log st) acc with
      | Ok _ => [urlopen_req (streams_url acc) 120]
      | Raise _ => []
      end /\
  (forall e, stage1 (st_log st) acc = Raise e ->
     st_out (snd (proc acc st)) =
       st_out st ++ [LProcessing (acc_name acc); LAccError (exc_msg e)]) /\
  (forall n, stage1 (st_log st) acc = Ok n <->
     exists r v, net (st_log st) (urlopen_req (cat_url acc) 30) = Ok r /\
                 response_json utf8_decode json_loads r = Ok v /\
                 ((exists l, v = JArr l) \/ (exists kvs, v = JObj kvs) \/
                  (exists s, v = JStr s)) /\
                 py_len v = Ok n).
Proof.
  split; [apply process_account_log|].
  split; [intros e; apply process_account_stage1_raise|].
  intros n. unfold stage1_outcome. split.
  - destruct (net _ _) as [r|e] eqn:N; [|discriminate].
    destruct (response_json _ _ r) as [v|e] eqn:J; [|discriminate].
    intros H. exists r, v. split; [reflexivity|]. split; [exact J|].
    split; [|exact H].
    destruct v; simpl in H; try discriminate; eauto.
  - intros [r [v [N [J [_ L]]]]]. now rewrite N, J.
Qed.

(** C7: whatever happens to earlier accounts, every account of the list has
    its stage-1 request issued exactly once, in list order, followed at most
    by its one stage-2 request; nothing is retried. *)
Theorem every_account_attempted_once accs st :
  exists reqs,
    st_log (snd (bench accs st)) = st_log st ++ concat reqs /\
    Forall2 (fun acc rs =>
               rs = [urlopen_req (cat_url acc) 30] \/
               rs = [urlopen_req (cat_url acc) 30; urlopen_req (streams_url acc) 120])
            accs reqs.
Proof.
  unfold bench_main. rewrite bind_print. unfold bind at 1.
  set (st1 := mkSt _ _ _).
  destruct (for_process_log accs st1) as [reqs [E F]].
  pose proof (for_process_ok net utf8_decode json_loads py_str accs st1) as Hok.
  destruct (for_ accs proc st1) as [[u|e] st2]; simpl in Hok, E; [|discriminate].
  exists reqs. split; [|exact F].
  unfold print. simpl. rewrite E. reflexivity.
Qed.

Local Abbreviation stream := (stream_main net).
Local Abbreviation chk := (check net).


(** C10: when the endpoint answers 200 with an empty body, [next] raises
    [StopIteration], which the script's handler catches: the run completes and
    reports the exception, with neither a byte count nor success. *)
Theorem empty_body_stop_iteration st r :
  net (st_log st) stream_req = Ok r ->
  resp_status r = 200%Z ->
  resp_body r = EmptyString ->
  resp_tail r = None ->
  first_chunk 64 r st = (Raise stop_iteration, st) /\
  stream st =
    (Ok tt,
     mkSt (st_log st ++ [stream_req])
          (st_out st ++ [LTesting stream_url; LStatusCode 200; LHeadersTitle] ++
           header_lines (resp_headers r) ++ [LReading; LException (exc_msg stop_iteration)])
          (st_rx st)).
Proof.
  intros N S B T.
  assert (FC : forall st0, first_chunk 64 r st0 = (Raise stop_iteration, st0)).
  { intros [l o x]. unfold first_chunk, bind, receive. rewrite B, T.
    destruct (chunk_limit 64 (resp_framing r)); simpl; [reflexivity|].
    now rewrite Nat.add_0_r. }
  split; [apply FC|].
  unfold stream_main. rewrite bind_print. unfold try_except.
  erewrite stream_probe_run by exact N. rewrite S, Z.eqb_refl.
  rewrite bind_print. erewrite bind_Raise by apply FC.
  unfold print. simpl. now rewrite <- !app_assoc.
Qed.

(** C6 (as the code does it): when the request itself fails (the network call
    raises), no status code and no header line is printed for the target:
    each script prints its lines up to the request and the error line
    carrying [str(e)]; in the benchmark, a failed categories request is
    followed by no streams request, and a failed streams request ends the
    account's block after its categories and searching lines. A failure while
    the stream body is read after a 200 answer is printed after the status
    code and all the headers; for an empty body the message is empty. *)
Theorem request_failure_no_status :
  (forall st e, net (st_log st) stream_req = Raise e ->
     st_out (snd (stream st)) = st_out st ++ [LTesting stream_url; LException (exc_msg e)]) /\
  (forall name u st e, net (st_log st) (head_req u) = Raise e ->
     st_out (snd (chk name u st)) = st_out st ++ [LChecking name; LCheckError (exc_msg e)]) /\
  (forall acc st e, net (st_log st) (urlopen_req (cat_url acc) 30) = Raise e ->
     st_out (snd (proc acc st)) =
       st_out st ++ [LProcessing (acc_name acc); LAccError (exc_msg e)] /\
     st_log (snd (proc acc st)) = st_log st ++ [urlopen_req (cat_url acc) 30]) /\
  (forall acc st n e,
     stage1 (st_log st) acc = Ok n ->
     net (st_log st ++ [urlopen_req (cat_url acc) 30]) (urlopen_req (streams_url acc) 120) =
       Raise e ->
     st_out (snd (proc acc st)) =
       st_out st ++ [LProcessing (acc_name acc); LCategories n; LSearching;
                     LAccError (exc_msg e)]) /\
  (forall st e, net (st_log st) dns_req = Raise e ->
     st_out (snd (dns_main net utf8_decode json_loads py_str st)) =
       st_out st ++ [LQuerying domain; LRaw (exc_msg e)]) /\
  (forall st r e,
     net (st_log st) stream_req = Ok r ->
     resp_status r = 200%Z ->
     (forall st1, fst (first_chunk 64 r st1) = Raise e) ->
     st_out (snd (stream st)) =
       st_out st ++ [LTesting stream_url; LStatusCode 200; LHeadersTitle] ++
       header_lines (resp_headers r) ++ [LReading; LException (exc_msg e)]) /\
  (forall st r,
     net (st_log st) stream_req = Ok r ->
     resp_status r = 200%Z ->
     resp_body r = EmptyString ->
     resp_tail r = None ->
     st_out (snd (stream st)) =
       st_out st ++ [LTesting stream_url; LStatusCode 200; LHeadersTitle] ++
       header_lines (resp_headers r) ++ [LReading; LException ""]).
Proof.
  assert (After : forall st r e,
     net (st_log st) stream_req = Ok r ->
     resp_status r = 200%Z ->
     (forall st1, fst (first_chunk 64 r st1) = Raise e) ->
     st_out (snd (stream st)) =
       st_out st ++ [LTesting stream_url; LStatusCode 200; LHeadersTitle] ++
       header_lines (resp_headers r) ++ [LReading; LException (exc_msg e)]).
  { intros st r e N S F. unfold stream_main. rewrite bind_print. unfold try_except.
    erewrite stream_probe_run by exact N. rewrite S, Z.eqb_refl.
    rewrite bind_print. unfold bind.
    match goal with
    | |- context [first_chunk 64 r ?s] =>
        pose proof (F s) as Fs;
        destruct (first_chunk_spec 64 r s) as [_ [O _]];
        destruct (first_chunk 64 r s) as [[c|e'] st3]; simpl in Fs, O; [discriminate|]
    end.
    injection Fs as ->. simpl. rewrite O. now rewrite <- !app_assoc. }
  split; [|split; [|split; [|split; [|split; [|split]]]]].
  - intros st e N. unfold stream_main. rewrite bind_print. unfold try_except.
    unfold stream_probe, bind at 1, send. simpl. rewrite N.
    unfold print. simpl. now rewrite <- app_assoc.
  - intros name u st e N. unfold check. rewrite bind_print. unfold try_except.
    unfold bind at 1, send. simpl. rewrite N.
    unfold print. simpl. now rewrite <- app_assoc.
  - intros acc st e N.
    assert (S1 : stage1 (st_log st) acc = Raise e).
    { unfold stage1_outcome. now rewrite N. }
    split.
    + now apply process_account_stage1_raise.
    + rewrite process_account_log, S1. reflexivity.
  - intros acc st n e S1 N2. now apply process_account_stage2_raise.
  - intros st e N. unfold dns_main. rewrite bind_print. unfold try_except.
    unfold bind at 1, send. simpl. rewrite N.
    unfold print. simpl. now rewrite <- app_assoc.
  - exact After.
  - intros st r N S B T.
    apply (After st r stop_iteration N S).
    intros [l o x]. unfold first_chunk, bind, receive. rewrite B, T.
    destruct (chunk_limit 64 (resp_framing r)); reflexivity.
Qed.

(** C5: every probe of [debug_redirect.py] is a HEAD request with redirect
    following disabled; a 302 answer carrying a [Location] header is printed
    as status 302 followed by that header's value. *)
Theorem head_probe_302 :
  (forall st, st_log (snd (redirect_main net st)) =
              st_log st ++ [head_req url_ts; head_req url_m3u8]) /\
  (forall u, req_method (head_req u) = HEAD /\ req_allow_redirects (head_req u) = false) /\
  (forall name u st r v,
     net (st_log st) (head_req u) = Ok r ->
     resp_status r = 302%Z ->
     hdr_lookup "Location" (resp_headers r) = Some v ->
     chk name u st =
       (Ok tt, mkSt (st_log st ++ [head_req u])
                    (st_out st ++ [LChecking name; LStatus 302; LLocation v]) (st_rx st))).
Proof.
  split; [|split].
  - intros st. unfold redirect_main, bind at 1.
    assert (L : forall name u st0,
               st_log (snd (chk name u st0)) = st_log st0 ++ [head_req u]).
    { intros name u st0. unfold check. rewrite bind_print.
      rewrite quiet_try by (intros; apply quiet_print).
      unfold bind at 1, send. simpl.
      destruct (net _ _) as [r|e]; [|reflexivity].
      rewrite bind_print. destruct (hdr_lookup _ _); reflexivity. }
    pose proof (L "TS" url_ts st) as L1.
    pose proof (check_ok net "TS" url_ts st) as Hok.
    destruct (chk "TS" url_ts st) as [[u|e] st1]; simpl in L1, Hok; [|discriminate].
    rewrite L, L1. now rewrite <- app_assoc.
  - intros u. split; reflexivity.
  - intros name u st r v N S H. unfold check. rewrite bind_print. unfold try_except.
    unfold bind at 1, send. simpl. rewrite N.
    rewrite !bind_print, H, S. unfold print. simpl. now rewrite <- !app_assoc.
Qed.

Lemma account_body_links acc st r1 cats n r2 entries :
  net (st_log st) (urlopen_req (cat_url acc) 30) = Ok r1 ->
  response_json utf8_decode json_loads r1 = Ok cats ->
  py_len cats = Ok n ->
  net (st_log st ++ [urlopen_req (cat_url acc) 30]) (urlopen_req (streams_url acc) 120) = Ok r2 ->
  response_json utf8_decode json_loads r2 = Ok (JArr entries) ->
  Forall plain_entry entries ->
  exists st2,
    account_body net utf8_decode json_loads py_str acc st = (Ok tt, st2) /\
    links_of (st_out st2) =
      links_of (st_out st) ++
      map (fun e => play_url py_str acc (stream_id_of e))
          (firstn 3 (filter (fun e => str_contains "MSNBC" (name_text e)) entries)).
Proof.
  intros N1 J1 L1 N2 J2 HF.
  assert (HO : Forall (fun e => exists kvs, e = JObj kvs)
                 (filter (fun e => str_contains "MSNBC" (name_text e)) entries)).
  { apply Forall_filter_sub. revert HF. apply Forall_impl.
    intros e [kvs [-> _]]. now exists kvs. }
  unfold account_body. rewrite urlopen_load_run, N1, (response_json_2xx _ _ _ _ J1), J1.
  rewrite L1, bind_lift_Ok, !bind_print.
  rewrite urlopen_load_run. cbn [st_log st_out st_rx].
  rewrite N2, (response_json_2xx _ _ _ _ J2), J2.
  change (py_len (JArr entries)) with (Ok (A:=nat) (List.length entries)).
  rewrite bind_lift_Ok, bind_print.
  change (py_iter (JArr entries)) with (Ok (A:=list Json) entries).
  rewrite bind_lift_Ok, (msnbc_filter_plain _ HF), bind_lift_Ok.
  destruct (filter _ entries) as [|m ms] eqn:F.
  - eexists. split; [reflexivity|]. simpl.
    rewrite !links_of_app. simpl. now rewrite !app_nil_r.
  - rewrite bind_print. fold (link_loop_body py_str acc).
    match goal with
    | |- context [for_ ?l (link_loop_body py_str acc) ?s] =>
        destruct (for_links py_str acc l s (Forall_firstn_sub _ 3 _ HO)) as [Hok Hl];
        destruct (for_ l (link_loop_body py_str acc) s) as [[u|e] st4]
    end; simpl in Hok, Hl; [|discriminate].
    destruct u. exists st4. split; [reflexivity|].
    rewrite Hl, !links_of_app. simpl. now rewrite !app_nil_r.
Qed.

(** C8: after a successful stage 2 whose body is a JSON list of objects with a
    string or no [name], the account prints one play URL
    [{url}/live/{user}/{pass}/{stream_id}.ts] for each of the first three
    entries whose name contains ["MSNBC"], in list order, and no other. *)
Theorem msnbc_links acc st r1 cats n r2 entries :
  net (st_log st) (urlopen_req (cat_url acc) 30) = Ok r1 ->
  response_json utf8_decode json_loads r1 = Ok cats ->
  py_len cats = Ok n ->
  net (st_log st ++ [urlopen_req (cat_url acc) 30]) (urlopen_req (streams_url acc) 120) = Ok r2 ->
  response_json utf8_decode json_loads r2 = Ok (JArr entries) ->
  Forall plain_entry entries ->
  links_of (st_out (snd (proc acc st))) =
    links_of (st_out st) ++
    map (fun e => (acc_url acc ++ "/live/" ++ acc_user acc ++ "/" ++ acc_pass acc ++ "/" ++
                   py_str (stream_id_of e) ++ ".ts")%string)
        (firstn 3 (filter (fun e => str_contains "MSNBC" (name_text e)) entries)) /\
  (List.length (links_of (st_out (snd (proc acc st)))) <=
   List.length (links_of (st_out st)) + 3)%nat.
Proof.
  intros N1 J1 L1 N2 J2 HF.
  unfold process_account. rewrite bind_print.
  destruct (account_body_links acc
              (mkSt (st_log st) (st_out st ++ [LProcessing (acc_name acc)]) (st_rx st))
              r1 cats n r2 entries N1 J1 L1 N2 J2 HF) as [st2 [E Hl]].
  rewrite (try_Ok _ _ _ _ _ E). cbn [snd].
  rewrite Hl. cbn [st_out]. rewrite links_of_app. cbn [links_of]. rewrite app_nil_r.
  split; [reflexivity|].
  rewrite length_app, length_map.
  pose proof (firstn_le_length 3
                (filter (fun e => str_contains "MSNBC" (name_text e)) entries)).
  lia.
Qed.

End Claims.

(** C9 (as the code does it): the comprehension is total over lists of
    objects whose [name] is a string or missing, a missing name standing for
    the empty string, which does not match; a [name] that is [null], a
    boolean or a number makes [in] raise [TypeError]. *)
Theorem msnbc_filter_total_plain :
  (forall xs, Forall plain_entry xs ->
     msnbc_filter xs = Ok (filter (fun e => str_contains "MSNBC" (name_text e)) xs)) /\
  (forall kvs, assoc "name" kvs = None -> msnbc_filter [JObj kvs] = Ok []) /\
  (forall kvs v, assoc "name" kvs = Some v ->
     (v = JNull \/ (exists b, v = JBool b) \/ (exists z, v = JNum z)) ->
     exists msg, msnbc_filter [JObj kvs] = Raise (type_error msg)).
Proof.
  split; [exact msnbc_filter_plain|]. split.
  - intros kvs H. simpl. now rewrite H.
  - intros kvs v H Hv. simpl. rewrite H.
    destruct Hv as [-> | [[b ->] | [z ->]]]; simpl; eexists; reflexivity.
Qed.

(** ** Further properties of the scripts *)

(** The lines one call [check(name, u)] prints, from the answer to its HEAD
    request. *)
Definition check_lines (name : string) (res : Res Response) : list Line :=
  LChecking name ::
  match res with
  | Raise e => [LCheckError (exc_msg e)]
  | Ok r =>
      [LStatus (resp_status r);
       match hdr_lookup "Location" (resp_headers r) with
       | Some v => LLocation v
       | None => LNoLocation
       end]
  end.

Lemma check_run net name u st :
  check net name u st =
  (Ok tt, mkSt (st_log st ++ [head_req u])
               (st_out st ++ check_lines name (net (st_log st) (head_req u)))
               (st_rx st)).
Proof.
  unfold check, check_lines. rewrite bind_print. unfold try_except, bind at 1, send. simpl.
  destruct (net _ _) as [r|e]; simpl.
  - rewrite bind_print. destruct (hdr_lookup _ _); unfold print; simpl;
      now rewrite <- !app_assoc.
  - unfold print. simpl. now rewrite <- app_assoc.
Qed.

(** [debug_redirect.py] runs both checks whatever the first one gives: two
    HEAD requests, no body byte received, and one block per check, either the
    status followed by the [Location] line or ["No Location header"], or the
    error line. *)
Theorem redirect_main_run net st :
  redirect_main net st =
  (Ok tt, mkSt (st_log st ++ [head_req url_ts; head_req url_m3u8])
               (st_out st ++ check_lines "TS" (net (st_log st) (head_req url_ts)) ++
                check_lines "M3U8" (net (st_log st ++ [head_req url_ts]) (head_req url_m3u8)))
               (st_rx st)).
Proof.
  unfold redirect_main. unfold bind at 1. rewrite check_run. rewrite check_run. simpl.
  now rewrite <- !app_assoc.
Qed.

Lemma hdr_lookup_location hs k v :
  NoDup (map (fun kv => str_lower (fst kv)) hs) -> In (k, v) hs ->
  str_lower k = "location" -> hdr_lookup "Location" hs = Some v.
Proof.
  induction hs as [|[k' v'] hs IH]; intros ND Hin Hk; [destruct Hin|].
  inversion ND as [|? ? Hnot ND']; subst. cbn [fst] in Hnot.
  cbn [hdr_lookup]. change (str_lower "Location") with "location".
  destruct (String.eqb_spec "location" (str_lower k')) as [E|E].
  - destruct Hin as [Heq|Hin]; [now injection Heq as -> ->|].
    exfalso. apply Hnot. rewrite <- E, <- Hk.
    apply in_map_iff. now exists (k, v).
  - destruct Hin as [Heq|Hin].
    + injection Heq as -> ->. congruence.
    + now apply IH.
Qed.

Lemma hdr_lookup_absent hs :
  (forall k v, In (k, v) hs -> str_lower k <> "location") -> hdr_lookup "Location" hs = None.
Proof.
  induction hs as [|[k' v'] hs IH]; intros H; [reflexivity|].
  cbn [hdr_lookup]. change (str_lower "Location") with "location".
  destruct (String.eqb_spec "location" (str_lower k')) as [E|E].
  - exfalso. apply (H k' v'); [now left | now rewrite E].
  - apply IH. intros k v Hin. apply (H k v). now right.
Qed.

(** The [Location] lookup of [check] ignores the case of the header name:
    a header named [location] in any capitalisation is printed; when no
    header name is [location] in any case, ["No Location header"] is printed
    whatever the status. *)
Theorem check_location_any_case :
  (forall net name u st r k v,
     net (st_log st) (head_req u) = Ok r ->
     In (k, v) (resp_headers r) -> str_lower k = "location" ->
     NoDup (map (fun kv => str_lower (fst kv)) (resp_headers r)) ->
     st_out (snd (check net name u st)) =
       st_out st ++ [LChecking name; LStatus (resp_status r); LLocation v]) /\
  (forall net name u st r,
     net (st_log st) (head_req u) = Ok r ->
     (forall k v, In (k, v) (resp_headers r) -> str_lower k <> "location") ->
     st_out (snd (check net name u st)) =
       st_out st ++ [LChecking name; LStatus (resp_status r); LNoLocation]).
Proof.
  split.
  - intros net name u st r k v N Hin Hk ND. rewrite check_run, N. cbn [snd st_out check_lines].
    unfold check_lines. now rewrite (hdr_lookup_location _ k v ND Hin Hk).
  - intros net name u st r N H. rewrite check_run, N. cbn [snd st_out]. unfold check_lines.
    now rewrite (hdr_lookup_absent _ H).
Qed.

(** The JSON value [r.json()] yields for a response [requests] has read in
    full. *)
Definition body_json (utf8_decode : string -> Res string) (json_loads : string -> Res Json)
    (r : Response) : Res Json :=
  match resp_tail r with
  | Some e => Raise e
  | None =>
      match utf8_decode (resp_body r) with
      | Raise e => Raise e
      | Ok txt => json_loads txt
      end
  end.

(** [debug_dns.py] sends one GET request and prints exactly two lines: the
    heading and either the decoded JSON or the exception message. The status
    code is never checked: any answer whose body reads, decodes and parses is
    printed as JSON. The whole body is received. *)
Theorem dns_main_run net utf8_decode json_loads py_str st :
  dns_main net utf8_decode json_loads py_str st =
  (Ok tt,
   mkSt (st_log st ++ [dns_req])
        (st_out st ++
         [LQuerying domain;
          match net (st_log st) dns_req with
          | Raise e => LRaw (exc_msg e)
          | Ok r =>
              match body_json utf8_decode json_loads r with
              | Ok j => LJson (py_str j)
              | Raise e => LRaw (exc_msg e)
              end
          end])
        (st_rx st + match net (st_log st) dns_req with
                    | Ok r => String.length (resp_body r)
                    | Raise _ => 0
                    end)).
Proof.
  unfold dns_main. rewrite bind_print. unfold try_except, bind at 1, send. simpl.
  destruct (net _ _) as [r|e]; simpl.
  - unfold body_json, read_all, bind, receive, lift, ret, throw, print. simpl.
    destruct (resp_tail r); simpl; [now rewrite <- app_assoc|].
    destruct (utf8_decode _); simpl; [|now rewrite <- app_assoc].
    destruct (json_loads _); simpl; now rewrite <- app_assoc.
  - unfold print. simpl. rewrite <- app_assoc, Nat.add_0_r. reflexivity.
Qed.

(** An answer other than 200 to the streaming probe is reported as a failure
    after its status and headers, with no exception and no body byte read. *)
Theorem stream_non200_failure net st r :
  net (st_log st) stream_req = Ok r ->
  resp_status r <> 200%Z ->
  stream_main net st =
  (Ok tt, mkSt (st_log st ++ [stream_req])
               (st_out st ++ [LTesting stream_url; LStatusCode (resp_status r); LHeadersTitle] ++
                header_lines (resp_headers r) ++ [LFailure (resp_status r)])
               (st_rx st)).
Proof.
  intros N S. unfold stream_main. rewrite bind_print. unfold try_except.
  erewrite stream_probe_run by exact N.
  rewrite (proj2 (Z.eqb_neq _ _) S). unfold print. simpl.
  now rewrite <- !app_assoc.
Qed.





(** A program that appends to the output, with at most [k] play URLs among the
    lines it appends. *)
Definition adds_links (k : nat) {A} (m : M A) : Prop :=
  forall st, exists ls, st_out (snd (m st)) = st_out st ++ ls /\ (List.length (links_of ls) <= k)%nat.

Lemma adds_links_of_appends {A} (m : M A) :
  appends (fun l => links_of [l] = []) m -> adds_links 0 m.
Proof.
  intros H st. destruct (H st) as [ls [E F]]. exists ls. split; [exact E|].
  enough (links_of ls = []) as -> by (simpl; lia).
  clear E. induction F as [|l ls Hl _ IH]; [reflexivity|].
  destruct l; simpl in Hl |- *; try discriminate; exact IH.
Qed.

Lemma adds_le k k' {A} (m : M A) : (k <= k')%nat -> adds_links k m -> adds_links k' m.
Proof.
  intros Hk H st. destruct (H st) as [ls [E L]]. exists ls. split; [exact E | lia].
Qed.

Lemma adds_bind k1 k2 {A B} (m : M A) (f : A -> M B) :
  adds_links k1 m -> (forall a, adds_links k2 (f a)) -> adds_links (k1 + k2) (bind m f).
Proof.
  intros Hm Hf st. unfold bind.
  destruct (Hm st) as [ls1 [E1 L1]].
  destruct (m st) as [[a|e] st1]; simpl in E1.
  - destruct (Hf a st1) as [ls2 [E2 L2]]. exists (ls1 ++ ls2). split.
    + rewrite E2, E1. symmetry. apply app_assoc.
    + rewrite links_of_app, length_app. lia.
  - exists ls1. split; [exact E1 | lia].
Qed.

Lemma adds_bind0 k {A B} (m : M A) (f : A -> M B) :
  adds_links 0 m -> (forall a, adds_links k (f a)) -> adds_links k (bind m f).
Proof. intros Hm Hf. exact (adds_bind 0 k m f Hm Hf). Qed.

Lemma adds_try k1 k2 {A} (body : M A) (h : PyExc -> M A) :
  adds_links k1 body -> (forall e, adds_links k2 (h e)) ->
  adds_links (k1 + k2) (try_except body h).
Proof.
  intros Hb Hh st. unfold try_except.
  destruct (Hb st) as [ls1 [E1 L1]].
  destruct (body st) as [[a|e] st1]; simpl in E1.
  - exists ls1. split; [exact E1 | lia].
  - destruct (Hh e st1) as [ls2 [E2 L2]]. exists (ls1 ++ ls2). split.
    + rewrite E2, E1. symmetry. apply app_assoc.
    + rewrite links_of_app, length_app. lia.
Qed.

Lemma adds_for k {A} (xs : list A) (body : A -> M unit) :
  (forall x, adds_links k (body x)) -> adds_links (List.length xs * k) (for_ xs body).
Proof.
  intros Hb. induction xs as [|x xs IH]; simpl.
  - apply adds_links_of_appends, appends_ret.
  - apply adds_bind; auto.
Qed.

Lemma adds_print_one l : adds_links 1 (print l).
Proof.
  intros st. exists [l]. split; [reflexivity|]. destruct l; simpl; lia.
Qed.

Ltac no_links := apply adds_links_of_appends; footprint.

Lemma account_body_adds net utf8_decode json_loads py_str acc :
  adds_links 3 (account_body net utf8_decode json_loads py_str acc).
Proof.
  unfold account_body.
  repeat (apply adds_bind0; [solve [no_links] | intros]).
  match goal with |- adds_links _ (match ?x with _ => _ end) => destruct x as [|m ms] end.
  - apply (adds_le 0); [lia | solve [no_links]].
  - apply adds_bind0; [solve [no_links]|]. intros _.
    apply (adds_le (List.length (firstn 3 (m :: ms)) * 1)).
    { rewrite Nat.mul_1_r. apply firstn_le_length. }
    apply adds_for. intros s.
    repeat (apply adds_bind0; [solve [no_links] | intros]).
    apply adds_print_one.
Qed.

(** Whatever the network and the JSON it returns, one account prints at most
    three play URLs, and a benchmark run at most three per account. *)
Theorem links_at_most_three net utf8_decode json_loads py_str :
  (forall acc st, exists ls,
     st_out (snd (process_account net utf8_decode json_loads py_str acc st)) = st_out st ++ ls /\
     (List.length (links_of ls) <= 3)%nat) /\
  (forall accs st, exists ls,
     st_out (snd (bench_main net utf8_decode json_loads py_str accs st)) = st_out st ++ ls /\
     (List.length (links_of ls) <= 3 * List.length accs)%nat).
Proof.
  assert (P : forall acc, adds_links 3 (process_account net utf8_decode json_loads py_str acc)).
  { intros acc. unfold process_account. apply adds_bind0; [solve [no_links]|]. intros _.
    apply (adds_le (3 + 0)); [lia|].
    apply adds_try; [apply account_body_adds|]. intros e. solve [no_links]. }
  split; [exact P|].
  intros accs. unfold bench_main. apply adds_bind0; [solve [no_links]|]. intros _.
  apply (adds_le (List.length accs * 3 + 0)); [lia|].
  apply adds_bind; [apply adds_for; exact P|]. intros _. solve [no_links].
Qed.

(** The two lines the benchmark prints for a listed MSNBC entry. *)
Definition entry_lines (py_str : Json -> string) (acc : Account) (e : Json) : list Line :=
  [LStreamEntry (py_str (stream_id_of e)) (py_str (JStr (name_text e)));
   LLink (play_url py_str acc (stream_id_of e))].

Definition named_entry (e : Json) : Prop :=
  exists kvs s, e = JObj kvs /\ assoc "name" kvs = Some (JStr s).

Lemma for_entry_lines py_str acc ms st :
  Forall named_entry ms ->
  for_ ms (link_loop_body py_str acc) st =
  (Ok tt, mkSt (st_log st) (st_out st ++ concat (map (entry_lines py_str acc) ms)) (st_rx st)).
Proof.
  intros H. revert st. induction H as [|e ms [kvs [s [-> A]]] _ IH]; intros st.
  - simpl. destruct st. simpl. now rewrite app_nil_r.
  - simpl. unfold bind at 1, link_loop_body, py_get, name_text, stream_id_of. rewrite A.
    destruct (assoc "stream_id" kvs); simpl; rewrite IH; simpl; now rewrite <- !app_assoc.
Qed.

Lemma found_named entries :
  Forall plain_entry entries ->
  Forall named_entry (filter (fun e => str_contains "MSNBC" (name_text e)) entries).
Proof.
  induction 1 as [|e es [kvs [-> Hn]] _ IH]; simpl; [constructor|].
  unfold name_text at 1.
  destruct (assoc "name" kvs) as [[]|] eqn:A; try contradiction; simpl; try exact IH.
  destruct (str_contains _ _); [|exact IH].
  constructor; [|exact IH]. now exists kvs, s.
Qed.

(** A fully successful account: both requests, the categories count, the
    streams count, then either ["MSNBC NOT FOUND"] or the number of ALL
    matching entries followed by two lines for each of the first three; both
    bodies are received in full. *)
Theorem account_success_run net utf8_decode json_loads py_str acc st r1 cats n r2 entries :
  net (st_log st) (urlopen_req (cat_url acc) 30) = Ok r1 ->
  response_json utf8_decode json_loads r1 = Ok cats ->
  py_len cats = Ok n ->
  net (st_log st ++ [urlopen_req (cat_url acc) 30]) (urlopen_req (streams_url acc) 120) = Ok r2 ->
  response_json utf8_decode json_loads r2 = Ok (JArr entries) ->
  Forall plain_entry entries ->
  process_account net utf8_decode json_loads py_str acc st =
  (Ok tt,
   mkSt (st_log st ++ [urlopen_req (cat_url acc) 30; urlopen_req (streams_url acc) 120])
        (st_out st ++
         [LProcessing (acc_name acc); LCategories n; LSearching; LStreams (List.length entries)] ++
         match filter (fun e => str_contains "MSNBC" (name_text e)) entries with
         | [] => [LNotFound]
         | m :: ms => LFound (List.length (m :: ms)) ::
                      concat (map (entry_lines py_str acc) (firstn 3 (m :: ms)))
         end)
        (st_rx st + String.length (resp_body r1) + String.length (resp_body r2))).
Proof.
  intros N1 J1 L1 N2 J2 HF.
  pose proof (found_named _ HF) as HN.
  unfold process_account. rewrite bind_print. apply try_Ok.
  unfold account_body. rewrite urlopen_load_run. cbn [st_log].
  rewrite N1, (response_json_2xx _ _ _ _ J1), J1.
  rewrite L1, bind_lift_Ok, !bind_print.
  rewrite urlopen_load_run. cbn [st_log st_out st_rx].
  rewrite N2, (response_json_2xx _ _ _ _ J2), J2.
  change (py_len (JArr entries)) with (Ok (A:=nat) (List.length entries)).
  rewrite bind_lift_Ok, bind_print.
  change (py_iter (JArr entries)) with (Ok (A:=list Json) entries).
  rewrite bind_lift_Ok, (msnbc_filter_plain _ HF), bind_lift_Ok.
  destruct (filter _ entries) as [|m ms] eqn:F.
  - unfold print. simpl. rewrite <- !app_assoc. simpl. now rewrite ?Nat.add_assoc.
  - rewrite bind_print. fold (link_loop_body py_str acc).
    rewrite for_entry_lines by (apply Forall_firstn_sub; exact HN).
    simpl. rewrite <- !app_assoc. simpl. now rewrite ?Nat.add_assoc.
Qed.

(** When stage 1 succeeds and the streams request raises, or its 2xx body
    cannot be read, decoded or parsed, or parses to a value without [len()],
    the account's block keeps its categories and searching lines and ends
    with the error. *)
Theorem stage2_failure_keeps_stage1 net utf8_decode json_loads py_str acc st r1 cats n e :
  net (st_log st) (urlopen_req (cat_url acc) 30) = Ok r1 ->
  response_json utf8_decode json_loads r1 = Ok cats ->
  py_len cats = Ok n ->
  (net (st_log st ++ [urlopen_req (cat_url acc) 30]) (urlopen_req (streams_url acc) 120) = Raise e \/
   exists r2, net (st_log st ++ [urlopen_req (cat_url acc) 30])
                  (urlopen_req (streams_url acc) 120) = Ok r2 /\
              is_2xx (resp_status r2) = true /\
              (response_json utf8_decode json_loads r2 = Raise e \/
               exists v, response_json utf8_decode json_loads r2 = Ok v /\ py_len v = Raise e)) ->
  st_out (snd (process_account net utf8_decode json_loads py_str acc st)) =
    st_out st ++ [LProcessing (acc_name acc); LCategories n; LSearching; LAccError (exc_msg e)] /\
  st_log (snd (process_account net utf8_decode json_loads py_str acc st)) =
    st_log st ++ [urlopen_req (cat_url acc) 30; urlopen_req (streams_url acc) 120].
Proof.
  intros N1 J1 L1 H2.
  assert (E : forall st1, st_log st1 = st_log st ->
            exists rx, account_body net utf8_decode json_loads py_str acc st1 =
              (Raise e, mkSt (st_log st ++ [urlopen_req (cat_url acc) 30;
                                            urlopen_req (streams_url acc) 120])
                             (st_out st1 ++ [LCategories n; LSearching]) rx)).
  { intros st1 Hl. unfold account_body. rewrite urlopen_load_run, Hl.
    rewrite N1, (response_json_2xx _ _ _ _ J1), J1.
    rewrite L1, bind_lift_Ok, !bind_print.
    rewrite urlopen_load_run. cbn [st_log st_out st_rx].
    destruct H2 as [N2 | (r2 & N2 & S2 & [J2 | (v & J2 & Lv)])]; rewrite N2.
    - eexists. unfold with_req. simpl. now rewrite <- !app_assoc.
    - rewrite S2, J2. eexists. simpl. now rewrite <- !app_assoc.
    - rewrite S2, J2, Lv, bind_lift_Raise. eexists. simpl. now rewrite <- !app_assoc. }
  unfold process_account. rewrite bind_print. unfold try_except.
  destruct (E (mkSt (st_log st) (st_out st ++ [LProcessing (acc_name acc)]) (st_rx st))
              eq_refl) as [rx E1].
  rewrite E1. simpl. split; [|reflexivity]. now rewrite <- !app_assoc.
Qed.

(** When the first element the comprehension visits is not a dict (any
    non-empty JSON object answer, whose keys are visited, a non-empty string,
    or a list starting with a non-object), [s.get] raises [AttributeError]
    after the streams count has been printed. *)
Theorem streams_entry_not_object net utf8_decode json_loads py_str acc st r1 cats n r2 v m x xs :
  net (st_log st) (urlopen_req (cat_url acc) 30) = Ok r1 ->
  response_json utf8_decode json_loads r1 = Ok cats ->
  py_len cats = Ok n ->
  net (st_log st ++ [urlopen_req (cat_url acc) 30]) (urlopen_req (streams_url acc) 120) = Ok r2 ->
  response_json utf8_decode json_loads r2 = Ok v ->
  py_len v = Ok m ->
  py_iter v = Ok (x :: xs) ->
  (forall kvs, x <> JObj kvs) ->
  st_out (snd (process_account net utf8_decode json_loads py_str acc st)) =
    st_out st ++ [LProcessing (acc_name acc); LCategories n; LSearching; LStreams m;
                  LAccError ("'" ++ py_type_name x ++ "' object has no attribute 'get'")].
Proof.
  intros N1 J1 L1 N2 J2 Lv Iv Hx.
  assert (Fx : msnbc_filter (x :: xs) =
               Raise (mkExc "AttributeError"
                        ("'" ++ py_type_name x ++ "' object has no attribute 'get'"))).
  { simpl. destruct x; try reflexivity. exfalso. exact (Hx kvs eq_refl). }
  unfold process_account. rewrite bind_print. unfold try_except.
  unfold account_body. rewrite urlopen_load_run. cbn [st_log].
  rewrite N1, (response_json_2xx _ _ _ _ J1), J1.
  rewrite L1, bind_lift_Ok, !bind_print.
  rewrite urlopen_load_run. cbn [st_log st_out st_rx].
  rewrite N2, (response_json_2xx _ _ _ _ J2), J2.
  rewrite Lv, bind_lift_Ok, bind_print, Iv, bind_lift_Ok, Fx, bind_lift_Raise.
  simpl. now rewrite <- !app_assoc.
Qed.

(** ** Concrete runs *)

Module Runs.

Local Open Scope string_scope.

Definition st0 : St := mkSt [] [] 0.

(** The third account of the script. *)
Definition acc3 : Account := nth 2 accounts (mkAcc "" "" "" "").

Definition entry (name : option string) (id : Z) : Json :=
  JObj (match name with
        | Some n => [("name", JStr n); ("stream_id", JNum id)]
        | None => [("stream_id", JNum id)]
        end).

Definition entry_text (name : option string) (id : Z) : string :=
  match name with
  | Some n => "{" ++ jstr "name" ++ ": " ++ jstr n ++ ", " ++ jstr "stream_id" ++ ": " ++
              z_to_string id ++ "}"
  | None => "{" ++ jstr "stream_id" ++ ": " ++ z_to_string id ++ "}"
  end.

Definition sample : list (option string * Z) :=
  [(Some "MSNBC HD", 101); (Some "CNN", 102); (None, 103); (Some "US: MSNBC", 104);
   (Some "MSNBC East", 105); (Some "MSNBC 4K", 106)]%Z.

Definition sample_entries : list Json := map (fun p => entry (fst p) (snd p)) sample.

Definition sample_body : string :=
  "[" ++ (fix go (l : list (option string * Z)) : string :=
            match l with
            | [] => ""
            | [p] => entry_text (fst p) (snd p)
            | p :: r => entry_text (fst p) (snd p) ++ ", " ++ go r
            end) sample ++ "]".

Definition ok_resp (body : string) : Response := mkResp 200 [] body None Delimited.

(** A panel answering the categories request with [cats_body] and the
    streams request with [sample_body]. *)
Definition panel_net (cats_body : string) : list Request -> Request -> Res Response :=
  fun _ r =>
    if String.eqb (req_url r) (cat_url acc3) then Ok (ok_resp cats_body)
    else Ok (ok_resp sample_body).

(** A stream endpoint answering every request with [r]. *)
Definition const_net (r : Response) : list Request -> Request -> Res Response :=
  fun _ _ => Ok r.

Example sample_links :
  links_of (st_out (snd (process_account (panel_net "[]") decode_impl json_loads_impl
                           py_str_impl acc3 st0))) =
  ["http://zfruvync.duperab.xyz/live/PE1S9S8U/11EZZUMW/101.ts";
   "http://zfruvync.duperab.xyz/live/PE1S9S8U/11EZZUMW/104.ts";
   "http://zfruvync.duperab.xyz/live/PE1S9S8U/11EZZUMW/105.ts"].
Proof. vm_compute. reflexivity. Qed.

(** *** Runs that settle the claims *)

(** A categories answer that is a JSON object, not an array: the script
    still asks for the streams. *)
Lemma stage1_object_issues_stage2 :
  st_log (snd (process_account (panel_net "{}") decode_impl json_loads_impl
                 py_str_impl acc3 st0)) =
  [urlopen_req (cat_url acc3) 30; urlopen_req (streams_url acc3) 120].
Proof. vm_compute. reflexivity. Qed.

Definition read_timeout : PyExc := mkExc "ReadTimeoutError" "Read timed out.".


Definition conn_reset : PyExc := mkExc "ProtocolError" "Connection reset by peer".

(** The connection is reset once the headers are in: the status code and
    the headers have already been printed when the failure is reported. *)
Lemma reset_after_headers :
  st_out (snd (stream_main
                 (const_net (mkResp 200 [("Content-Type", "video/mp2t")] "" (Some conn_reset) Delimited))
                 st0)) =
  [LTesting stream_url; LStatusCode 200; LHeadersTitle;
   LHeader "Content-Type" "video/mp2t"; LReading;
   LException "Connection reset by peer"].
Proof. vm_compute. reflexivity. Qed.

(** An entry whose name is JSON null: [s.get("name", "")] returns [None]
    and the membership test raises. *)
Lemma null_name_raises :
  msnbc_filter [JObj [("name", JNull); ("stream_id", JNum 1)]] =
  Raise (type_error "argument of type 'NoneType' is not iterable").
Proof. vm_compute. reflexivity. Qed.

Definition alive_resp : Response := mkResp 200 [("Content-Type", "video/mp2t")] "abc" None Delimited.




Definition moved_resp : Response :=
  mkResp 302 [("location", "http://cdn.example/53504.ts")] "" None Delimited.

Lemma head_probe_302_witness :
  check (const_net moved_resp) "TS" url_ts st0 =
  (Ok tt, mkSt [head_req url_ts]
             [LChecking "TS"; LStatus 302; LLocation "http://cdn.example/53504.ts"] 0).
Proof.
  apply (proj2 (proj2 (head_probe_302 (const_net moved_resp))) "TS" url_ts st0 moved_resp).
  - reflexivity.
  - reflexivity.
  - vm_compute. reflexivity.
Defined.

Lemma msnbc_links_witness :
  links_of (st_out (snd (process_account (panel_net "[]") decode_impl json_loads_impl
                           py_str_impl acc3 st0))) =
  (links_of [] ++
  map (fun e => (acc_url acc3 ++ "/live/" ++ acc_user acc3 ++ "/" ++ acc_pass acc3 ++
                 "/" ++ py_str_impl (stream_id_of e) ++ ".ts")%string)
      (firstn 3 (filter (fun e => str_contains "MSNBC" (name_text e)) sample_entries)))%list /\
  length (links_of (st_out (snd (process_account (panel_net "[]") decode_impl
                                   json_loads_impl py_str_impl acc3 st0)))) <=
  length (links_of []) + 3.
Proof.
  apply (msnbc_links (panel_net "[]") decode_impl json_loads_impl py_str_impl acc3 st0
           (ok_resp "[]") (JArr []) 0 (ok_resp sample_body) sample_entries).
  - vm_compute. reflexivity.
  - vm_compute. reflexivity.
  - reflexivity.
  - vm_compute. reflexivity.
  - vm_compute. reflexivity.
  - repeat (apply Forall_cons; [eexists; split; [reflexivity | exact I] |]).
    apply Forall_nil.
Defined.

Definition empty_resp : Response := mkResp 200 [] "" None Delimited.

Lemma empty_body_stop_iteration_witness :
  first_chunk 64 empty_resp st0 = (Raise stop_iteration, st0) /\
  stream_main (const_net empty_resp) st0 =
  (Ok tt, mkSt [stream_req]
             [LTesting stream_url; LStatusCode 200; LHeadersTitle; LReading;
              LException ""] 0).
Proof.
  apply (empty_body_stop_iteration (const_net empty_resp) st0 empty_resp);
    reflexivity.
Defined.

(** A panel answering the categories request of [acc3] with [cats_body] and
    every other request with [streams_body]. *)
Definition panel_net2 (cats_body streams_body : string) : list Request -> Request -> Res Response :=
  fun _ r =>
    if String.eqb (req_url r) (cat_url acc3) then Ok (ok_resp cats_body)
    else Ok (ok_resp streams_body).

(** A panel whose streams request times out. *)
Definition stall_net : list Request -> Request -> Res Response :=
  fun _ r =>
    if String.eqb (req_url r) (cat_url acc3) then Ok (ok_resp "[]")
    else Raise read_timeout.

Definition not_found_resp : Response :=
  mkResp 404 [("Server", "nginx")] "not found" None Delimited.

Lemma stream_non200_failure_witness :
  stream_main (const_net not_found_resp) st0 =
  (Ok tt, mkSt [stream_req]
             [LTesting stream_url; LStatusCode 404; LHeadersTitle;
              LHeader "Server" "nginx"; LFailure 404] 0).
Proof.
  apply (stream_non200_failure (const_net not_found_resp) st0 not_found_resp).
  - reflexivity.
  - discriminate.
Defined.

Definition link3 (id : string) : string :=
  "http://zfruvync.duperab.xyz/live/PE1S9S8U/11EZZUMW/" ++ id ++ ".ts".

Lemma account_success_run_witness :
  process_account (panel_net "[]") decode_impl json_loads_impl py_str_impl acc3 st0 =
  (Ok tt,
   mkSt [urlopen_req (cat_url acc3) 30; urlopen_req (streams_url acc3) 120]
        [LProcessing "Strong8k2-PC"; LCategories 0; LSearching; LStreams 6; LFound 4;
         LStreamEntry "101" "MSNBC HD"; LLink (link3 "101");
         LStreamEntry "104" "US: MSNBC"; LLink (link3 "104");
         LStreamEntry "105" "MSNBC East"; LLink (link3 "105")]
        (0 + String.length (resp_body (ok_resp "[]")) +
         String.length (resp_body (ok_resp sample_body)))).
Proof.
  apply (account_success_run (panel_net "[]") decode_impl json_loads_impl py_str_impl acc3 st0
           (ok_resp "[]") (JArr []) 0 (ok_resp sample_body) sample_entries).
  - vm_compute. reflexivity.
  - vm_compute. reflexivity.
  - reflexivity.
  - vm_compute. reflexivity.
  - vm_compute. reflexivity.
  - repeat (apply Forall_cons; [eexists; split; [reflexivity | exact I] |]).
    apply Forall_nil.
Defined.

Definition reset_resp : Response :=
  mkResp 200 [("Content-Type", "video/mp2t")] "" (Some conn_reset) Delimited.

Lemma request_failure_no_status_witness :
  st_out (snd (process_account stall_net decode_impl json_loads_impl py_str_impl acc3 st0)) =
    [LProcessing "Strong8k2-PC"; LCategories 0; LSearching; LAccError "Read timed out."] /\
  st_out (snd (stream_main (const_net reset_resp) st0)) =
    [LTesting stream_url; LStatusCode 200; LHeadersTitle;
     LHeader "Content-Type" "video/mp2t"; LReading;
     LException "Connection reset by peer"].
Proof.
  split.
  - apply (proj1 (proj2 (proj2 (proj2 (request_failure_no_status
             stall_net decode_impl json_loads_impl py_str_impl)))) acc3 st0 0 read_timeout).
    + vm_compute. reflexivity.
    + reflexivity.
  - apply (proj1 (proj2 (proj2 (proj2 (proj2 (proj2 (request_failure_no_status
             (const_net reset_resp) decode_impl json_loads_impl py_str_impl))))))
             st0 reset_resp conn_reset).
    + reflexivity.
    + reflexivity.
    + intros [l o x]. reflexivity.
Defined.

Lemma stage2_failure_keeps_stage1_witness :
  st_out (snd (process_account stall_net decode_impl json_loads_impl py_str_impl acc3 st0)) =
    [LProcessing "Strong8k2-PC"; LCategories 0; LSearching; LAccError "Read timed out."] /\
  st_log (snd (process_account stall_net decode_impl json_loads_impl py_str_impl acc3 st0)) =
    [urlopen_req (cat_url acc3) 30; urlopen_req (streams_url acc3) 120].
Proof.
  apply (stage2_failure_keeps_stage1 stall_net decode_impl json_loads_impl py_str_impl acc3 st0
           (ok_resp "[]") (JArr []) 0 read_timeout).
  - vm_compute. reflexivity.
  - vm_compute. reflexivity.
  - reflexivity.
  - left. vm_compute. reflexivity.
Defined.

(** The answer a panel gives to refused credentials. *)
Definition auth_body : string :=
  "{" ++ jstr "user_info" ++ ": {" ++ jstr "auth" ++ ": 0}}".

Lemma streams_entry_not_object_witness :
  st_out (snd (process_account (panel_net2 "[]" auth_body) decode_impl json_loads_impl
                 py_str_impl acc3 st0)) =
    [LProcessing "Strong8k2-PC"; LCategories 0; LSearching; LStreams 1;
     LAccError "'str' object has no attribute 'get'"].
Proof.
  apply (streams_entry_not_object (panel_net2 "[]" auth_body) decode_impl json_loads_impl
           py_str_impl acc3 st0 (ok_resp "[]") (JArr []) 0 (ok_resp auth_body)
           (JObj [("user_info", JObj [("auth", JNum 0)])]) 1 (JStr "user_info") []).
  - vm_compute. reflexivity.
  - vm_compute. reflexivity.
  - reflexivity.
  - vm_compute. reflexivity.
  - vm_compute. reflexivity.
  - reflexivity.
  - reflexivity.
  - intros kvs. discriminate.
Defined.

Definition upper_moved_resp : Response :=
  mkResp 301 [("Server", "nginx"); ("LOCATION", "http://cdn.example/53504.ts")] "" None Delimited.

Lemma check_location_any_case_witness :
  st_out (snd (check (const_net upper_moved_resp) "TS" url_ts st0)) =
    [LChecking "TS"; LStatus 301; LLocation "http://cdn.example/53504.ts"].
Proof.
  apply (proj1 check_location_any_case (const_net upper_moved_resp) "TS" url_ts st0
           upper_moved_resp "LOCATION" "http://cdn.example/53504.ts").
  - reflexivity.
  - right. left. reflexivity.
  - reflexivity.
  - vm_compute. repeat constructor; simpl; intuition discriminate.
Defined.

(** [len] of a decoded string counts characters: "cafe" with an accented
    final e, five bytes in UTF-8, has length 4. *)
Example py_len_characters :
  py_len (JStr ("caf" ++ String "195"%char (String "169"%char EmptyString))) = Ok 4.
Proof. reflexivity. Qed.

End Runs.

